(** * Comparison, banding, history and dashboard logic of the LCA tool

    A shallow embedding of the decision logic found in the React
    components [ComparisonTool.js], [HelpPage.js] (which holds the
    [Dashboard] component) and [Navigation.js] (which holds [App]).

    Conventions of the embedding.
    - Metric values reach the front end as JSON numbers, hence as finite
      doubles.  They are modelled as rationals ([Q]); order and equality
      tests of the source are the order and the equality of [Q] ([Qeq]),
      and arithmetic is exact.
    - The results of JavaScript arithmetic that are not finite numbers
      ([Infinity], [-Infinity], [NaN]) are kept: see [number].
    - React state is passed explicitly; an event handler is a function
      from the state before to the state after.
    - A [TypeError] raised while rendering is [None]. *)

From Stdlib Require Import QArith Lqa.
From stdpp Require Import gmap strings list fin_maps.

Local Open Scope string_scope.

(** ** JavaScript numbers *)

Module JS.

(** The values of type Number that the modelled expressions produce. *)
Inductive number : Type :=
  | Num (q : Q)
  | Infinity
  | NegInfinity
  | NaN.

(** [a < b] on numbers; any comparison with [NaN] is false. *)
Definition lt (a b : number) : bool :=
  match a, b with
  | NaN, _ | _, NaN => false
  | Num x, Num y => negb (Qle_bool y x)
  | Num _, Infinity => true
  | Num _, NegInfinity => false
  | Infinity, _ => false
  | NegInfinity, NegInfinity => false
  | NegInfinity, _ => true
  end.

(** [a > b]. *)
Definition gt (a b : number) : bool := lt b a.

(** [a === b] on numbers. *)
Definition strict_eq (a b : number) : bool :=
  match a, b with
  | Num x, Num y => Qeq_bool x y
  | Infinity, Infinity => true
  | NegInfinity, NegInfinity => true
  | _, _ => false
  end.

(** [a - b], for finite operands. *)
Definition sub (a b : Q) : Q := (a - b)%Q.

(** [a / b] for a finite numerator and a finite denominator.  The
    denominators of the source are never the negative zero (they come out
    of [x || 0]), so a zero denominator is [+0]: the quotient is [NaN] for
    a zero numerator and an infinity of the numerator's sign otherwise. *)
Definition div (a b : Q) : number :=
  if Qeq_bool b 0 then
    if Qeq_bool a 0 then NaN
    else if Qle_bool 0 a then Infinity else NegInfinity
  else Num (a / b)%Q.

(** [a * k] for a finite, strictly positive [k]. *)
Definition mul_pos (a : number) (k : Q) : number :=
  match a with
  | Num x => Num (x * k)%Q
  | other => other
  end.

(** [Math.min(...values)]: starts from [Infinity] and keeps the lowest. *)
Definition Math_min (values : list Q) : number :=
  fold_left (fun lowest x => if lt (Num x) lowest then Num x else lowest)
            values Infinity.

(** [Math.max(...values)]: starts from [-Infinity] and keeps the highest. *)
Definition Math_max (values : list Q) : number :=
  fold_left (fun highest x => if gt (Num x) highest then Num x else highest)
            values NegInfinity.

(** [values.indexOf(v)], counting from [i]; [-1] when [v] is not found. *)
Fixpoint indexOf_from (i : Z) (values : list Q) (v : number) : Z :=
  match values with
  | [] => (-1)%Z
  | x :: rest =>
      if strict_eq (Num x) v then i else indexOf_from (i + 1)%Z rest v
  end.

Definition indexOf (values : list Q) (v : number) : Z :=
  indexOf_from 0%Z values v.

(** [o || 0] where [o] is a property read: a missing property
    ([undefined]) and the number zero are falsy. *)
Definition or_zero (o : option Q) : Q :=
  match o with
  | Some q => if Qeq_bool q 0 then 0%Q else q
  | None => 0%Q
  end.

(** [list.includes(s)] on strings. *)
Definition includes (l : list string) (s : string) : bool :=
  bool_decide (s ∈ l).

End JS.

(** ** Data model *)

(** An assessment as returned by the assessment service: the fields the
    components read.  [results] is absent ([None]) or a mapping from
    metric key to value. *)
Record Assessment : Type := mkAssessment {
  metal_type : string;
  production_route : string;
  results : option (gmap string Q)
}.

(** The colour names passed to the Material UI components. *)
Inductive color : Type := Success | Warning | Error | Primary.

(** The three icons of [getImprovementIcon]. *)
Inductive icon : Type := TrendingUp | TrendingDown | Remove.

#[global] Instance color_eq_dec : EqDecision color.
Proof. solve_decision. Defined.

#[global] Instance icon_eq_dec : EqDecision icon.
Proof. solve_decision. Defined.

(** ** The comparison tool ([ComparisonTool.js]) *)

Module ComparisonTool.
Import JS.

(** The two lists of [getMetricColor]. *)
Definition lowerIsBetter : list string :=
  ["carbon_footprint"; "energy_consumption"; "water_usage"; "waste_generation"].

Definition higherIsBetter : list string :=
  ["sustainability_score"; "circularity_index"; "material_efficiency";
   "recycling_potential"].

Definition getMetricColor (value : Q) (metric : string) : color :=
  if includes lowerIsBetter metric then
    if lt (Num value) (Num 50) then Success
    else if lt (Num value) (Num 100) then Warning else Error
  else if includes higherIsBetter metric then
    if gt (Num value) (Num 80) then Success
    else if gt (Num value) (Num 60) then Warning else Error
  else Primary.

(** The local [improvement] of [getImprovementIcon]:
    [((baseline - current) / baseline) * 100]. *)
Definition improvement (current baseline : Q) : number :=
  mul_pos (div (sub baseline current) baseline) 100.

Definition getImprovementIcon (current baseline : Q) : icon :=
  let improvement := improvement current baseline in
  if gt improvement (Num 5) then TrendingUp
  else if lt improvement (Num (-5)) then TrendingDown
  else Remove.

(** The rows of the comparison table. Icons are not modelled. *)
Record Metric : Type := mkMetric { key : string; label : string; unit : string }.

Definition metrics : list Metric :=
  [ mkMetric "carbon_footprint" "Carbon Footprint" "kg CO₂";
    mkMetric "energy_consumption" "Energy Consumption" "kWh";
    mkMetric "water_usage" "Water Usage" "L";
    mkMetric "sustainability_score" "Sustainability Score" "/100";
    mkMetric "circularity_index" "Circularity Index" "";
    mkMetric "material_efficiency" "Material Efficiency" "%" ].

(** [selectedAssessments.map(index =>
       availableAssessments[index].results[metric.key] || 0)].
    Reading [results] of an index out of range, or a key of an absent
    [results], throws. *)
Definition readMetric (availableAssessments : list Assessment) (k : string)
    (index : nat) : option Q :=
  a ← availableAssessments !! index;
  r ← results a;
  Some (or_zero (r !! k)).

Definition metricValues (availableAssessments : list Assessment)
    (selectedAssessments : list nat) (k : string) : option (list Q) :=
  mapM (readMetric availableAssessments k) selectedAssessments.

(** [bestValue]: the minimum for three keys, the maximum otherwise. *)
Definition bestValue (k : string) (values : list Q) : number :=
  if bool_decide (k = "carbon_footprint")
     || bool_decide (k = "energy_consumption")
     || bool_decide (k = "water_usage")
  then Math_min values
  else Math_max values.

Definition bestIndex (k : string) (values : list Q) : Z :=
  indexOf values (bestValue k values).

(** One value cell: the chip (its value, unit and colour; the label is the
    value printed with one decimal, which is not modelled) and, from the
    second column on, the trend icon against [values[0]]. *)
Record Cell : Type := mkCell {
  chip_value : Q;
  chip_unit : string;
  chip_color : color;
  trend : option icon
}.

Definition valueCell (m : Metric) (values : list Q) (bestIndex : Z)
    (i : nat) (value : Q) : Cell :=
  {| chip_value := value;
     chip_unit := unit m;
     chip_color := if bool_decide (Z.of_nat i = bestIndex) then Success
                   else getMetricColor value (key m);
     trend := if bool_decide (0 < i)%nat
              then Some (getImprovementIcon value (default 0%Q (values !! 0%nat)))
              else None |}.

(** The last cell: [Some n] is the label "Option n", [None] is "N/A"
    ([selectedAssessments[bestIndex]] is [undefined]). *)
Definition bestLabel (selectedAssessments : list nat) (bestIndex : Z) : option Z :=
  if bool_decide (0 ≤ bestIndex < Z.of_nat (length selectedAssessments))%Z
  then Some (bestIndex + 1)%Z else None.

Record Row : Type := mkRow {
  row_key : string;
  row_label : string;
  row_cells : list Cell;
  row_best : option Z
}.

Definition renderRow (availableAssessments : list Assessment)
    (selectedAssessments : list nat) (m : Metric) : option Row :=
  values ← metricValues availableAssessments selectedAssessments (key m);
  let bestIndex := bestIndex (key m) values in
  Some {| row_key := key m;
          row_label := label m;
          row_cells := imap (valueCell m values bestIndex) values;
          row_best := bestLabel selectedAssessments bestIndex |}.

(** *** Component state and event handlers *)

(** The body of a successful response of [/api/compare], as far as the
    component reads it. *)
Record ComparisonData : Type := mkData { recommendations : option string }.

Record State : Type := mkState {
  selectedAssessments : list nat;
  comparisonResults : option ComparisonData;
  loading : bool;
  error : string;
  tabValue : nat;
  availableAssessments : list Assessment
}.

(** [useState] initial values. *)
Definition initialState : State :=
  {| selectedAssessments := [];
     comparisonResults := None;
     loading := false;
     error := "";
     tabValue := 0;
     availableAssessments := [] |}.

(** [assessment.results && Object.keys(assessment.results).length > 0] *)
Definition hasResults (a : Assessment) : bool :=
  match results a with
  | Some r => bool_decide (0 < size r)%nat
  | None => false
  end.

(** The effect on [assessmentHistory]: keep the assessments with results. *)
Definition filterEffect (assessmentHistory : list Assessment) (st : State) : State :=
  let validAssessments := filter (λ assessment, hasResults assessment = true) assessmentHistory in
  {| selectedAssessments := selectedAssessments st;
     comparisonResults := comparisonResults st;
     loading := loading st;
     error := error st;
     tabValue := tabValue st;
     availableAssessments := validAssessments |}.

Definition handleAddAssessment (assessmentIndex : nat) (st : State) : State :=
  if bool_decide (length (selectedAssessments st) < 4)%nat
     && negb (bool_decide (assessmentIndex ∈ selectedAssessments st))
  then {| selectedAssessments := selectedAssessments st ++ [assessmentIndex];
          comparisonResults := comparisonResults st;
          loading := loading st;
          error := error st;
          tabValue := tabValue st;
          availableAssessments := availableAssessments st |}
  else st.

Definition handleRemoveAssessment (assessmentIndex : nat) (st : State) : State :=
  {| selectedAssessments :=
       filter (λ index, index ≠ assessmentIndex) (selectedAssessments st);
     comparisonResults := None;
     loading := loading st;
     error := error st;
     tabValue := tabValue st;
     availableAssessments := availableAssessments st |}.

(** The payload of the request: [availableAssessments[index]] for each
    selected index, [undefined] ([None]) out of range. *)
Definition assessmentsData (st : State) : list (option Assessment) :=
  map (fun index => availableAssessments st !! index) (selectedAssessments st).

(** How the awaited [axios.post] settles: with the response body, or with
    an exception whose [response?.data?.error] is the given option. *)
Inductive outcome : Type :=
  | Resolved (data : ComparisonData)
  | Rejected (server_error : option string).

(** [error.response?.data?.error || 'An error occurred during comparison'] *)
Definition surfaced (server_error : option string) : string :=
  match server_error with
  | Some msg => if bool_decide (msg = "") then "An error occurred during comparison" else msg
  | None => "An error occurred during comparison"
  end.

(** [runComparison], with the comparison service as a function of the
    payload.  The result is the state once the handler has finished and
    the payloads posted, in order. *)
Definition runComparison (post : list (option Assessment) → outcome)
    (st : State) : State * list (list (option Assessment)) :=
  if bool_decide (length (selectedAssessments st) < 2)%nat then
    ({| selectedAssessments := selectedAssessments st;
        comparisonResults := comparisonResults st;
        loading := loading st;
        error := "Please select at least 2 assessments to compare";
        tabValue := tabValue st;
        availableAssessments := availableAssessments st |}, [])
  else
    let payload := assessmentsData st in
    match post payload with
    | Resolved data =>
        ({| selectedAssessments := selectedAssessments st;
            comparisonResults := Some data;
            loading := false;
            error := "";
            tabValue := tabValue st;
            availableAssessments := availableAssessments st |}, [payload])
    | Rejected server_error =>
        ({| selectedAssessments := selectedAssessments st;
            comparisonResults := comparisonResults st;
            loading := false;
            error := surfaced server_error;
            tabValue := tabValue st;
            availableAssessments := availableAssessments st |}, [payload])
    end.

(** [renderComparisonTable]: [Some None] is the [null] returned while there
    are no comparison results, [None] a [TypeError]. *)
Definition renderComparisonTable (st : State) : option (option (list Row)) :=
  match comparisonResults st with
  | None => Some None
  | Some _ =>
      rows ← mapM (renderRow (availableAssessments st) (selectedAssessments st)) metrics;
      Some (Some rows)
  end.

(** The comparison ends with an error shown to the user. *)
Definition fails (post : list (option Assessment) → outcome) (st : State) : Prop :=
  error (runComparison post st).1 ≠ "".

(** The user's actions on the selection, as the page offers them: the add
    button of card [index] exists for [index] below the number of available
    assessments; a removal is offered on cards and chips. *)
Inductive action : Type :=
  | Add (assessmentIndex : nat)
  | Delete (assessmentIndex : nat).

Definition offered (st : State) (a : action) : Prop :=
  match a with
  | Add i => (i < length (availableAssessments st))%nat
  | Delete _ => True
  end.

Definition handle (a : action) (st : State) : State :=
  match a with
  | Add i => handleAddAssessment i st
  | Delete i => handleRemoveAssessment i st
  end.

(** The states reached from the mounted component, whose effect has run on
    [assessmentHistory], by offered actions.  The history is the one the
    component was mounted with: [App] changes it on another route only. *)
Inductive reachable (assessmentHistory : list Assessment) : State → Prop :=
  | reach_mount : reachable assessmentHistory (filterEffect assessmentHistory initialState)
  | reach_step st a :
      reachable assessmentHistory st → offered st a →
      reachable assessmentHistory (handle a st).

End ComparisonTool.

(** ** The dashboard ([Dashboard] in [HelpPage.js]) *)

Module Dashboard.
Import JS.
Local Open Scope Q_scope.

Record DashboardStats : Type := mkStats {
  totalAssessments : Q;
  avgCarbonFootprint : number;
  avgSustainabilityScore : number;
  avgCircularityIndex : number
}.

(** [useState] initial value. *)
Definition initialStats : DashboardStats :=
  {| totalAssessments := 0;
     avgCarbonFootprint := Num 0;
     avgSustainabilityScore := Num 0;
     avgCircularityIndex := Num 0 |}.

(** The accumulator of the [reduce]. *)
Record Acc : Type := mkAcc {
  acc_total : Q;
  acc_carbon : Q;
  acc_sustainability : Q;
  acc_circularity : Q
}.

(** [(assessment.results || {}).k || 0] *)
Definition metricOrZero (a : Assessment) (k : string) : Q :=
  or_zero (r ← results a; r !! k).

Definition reducer (acc : Acc) (assessment : Assessment) : Acc :=
  {| acc_total := acc_total acc + 1;
     acc_carbon := acc_carbon acc + metricOrZero assessment "carbon_footprint";
     acc_sustainability :=
       acc_sustainability acc + metricOrZero assessment "sustainability_score";
     acc_circularity :=
       acc_circularity acc + metricOrZero assessment "circularity_index" |}.

(** The effect on [assessmentHistory]: it sets the statistics only for a
    history that is not empty. *)
Definition statsEffect (assessmentHistory : list Assessment)
    (dashboardStats : DashboardStats) : DashboardStats :=
  if bool_decide (0 < length assessmentHistory)%nat then
    let stats := fold_left reducer assessmentHistory (mkAcc 0 0 0 0) in
    {| totalAssessments := acc_total stats;
       avgCarbonFootprint := div (acc_carbon stats) (acc_total stats);
       avgSustainabilityScore := div (acc_sustainability stats) (acc_total stats);
       avgCircularityIndex := div (acc_circularity stats) (acc_total stats) |}
  else dashboardStats.

(** The statistics shown by a dashboard mounted on [assessmentHistory]. *)
Definition aggregate (assessmentHistory : list Assessment) : DashboardStats :=
  statsEffect assessmentHistory initialStats.

(** [getImpactColor]; [value] is [None] for [undefined], which compares
    false with every number. *)
Definition getImpactColor (value : option Q) (type : string) : color :=
  let below (c : Q) :=
    match value with Some v => lt (Num v) (Num c) | None => false end in
  let above (c : Q) :=
    match value with Some v => gt (Num v) (Num c) | None => false end in
  if bool_decide (type = "carbon") then
    if below 50 then Success
    else if below 200 then Warning
    else Error
  else if bool_decide (type = "sustainability") || bool_decide (type = "circularity") then
    if above 0.8 || above 80 then Success
    else if above 0.6 || above 60 then Warning
    else Error
  else Primary.

(** The colour of a row of the recent-assessments list:
    [getImpactColor(assessment.results?.sustainability_score, 'sustainability')] *)
Definition recentColor (assessment : Assessment) : color :=
  getImpactColor (r ← results assessment; r !! "sustainability_score") "sustainability".

End Dashboard.

(** ** The application shell ([App] in [Navigation.js]) *)

Module App.

(** The [assessmentHistory] update of [handleAssessmentComplete]:
    [prev => [assessmentData, ...prev.slice(0, 9)]]. *)
Definition handleAssessmentComplete (assessmentData : Assessment)
    (prev : list Assessment) : list Assessment :=
  assessmentData :: take 9 prev.

(** The histories of a session: from [useState([])], by completed
    assessments. *)
Inductive history : list Assessment → Prop :=
  | history_initial : history []
  | history_complete assessmentData prev :
      history prev → history (handleAssessmentComplete assessmentData prev).

End App.

(** ** The improvement and the banding as the specification words them *)

Module Spec.
Import JS.

Inductive directionality : Type := LowerBetter | HigherBetter.

(** The directionality of a metric key, read off the two lists of
    [getMetricColor]. *)
Definition directionality_of (k : string) : option directionality :=
  if includes ComparisonTool.lowerIsBetter k then Some LowerBetter
  else if includes ComparisonTool.higherIsBetter k then Some HigherBetter
  else None.

(** "for lower-is-better metrics, (baseline − value) / baseline × 100; for
    higher-is-better metrics, (value − baseline) / baseline × 100". *)
Definition improvement (d : directionality) (value baseline : Q) : number :=
  match d with
  | LowerBetter => mul_pos (div (sub baseline value) baseline) 100
  | HigherBetter => mul_pos (div (sub value baseline) baseline) 100
  end.

(** "If baseline value is 0, improvement is reported as null": [None] is
    the null. *)
Definition guarded_improvement (d : directionality) (value baseline : Q)
    : option number :=
  if Qeq_bool baseline 0 then None else Some (improvement d value baseline).

(** "the metric is flagged incomplete in the output": what a marker read
    off a rendered row has to satisfy, namely to be set exactly when a
    selected record lacks the key. *)
Definition marks_incomplete (flag : ComparisonTool.Row → bool) : Prop :=
  ∀ (available : list Assessment) (selected : list nat)
    (m : ComparisonTool.Metric) (row : ComparisonTool.Row),
    ComparisonTool.renderRow available selected m = Some row →
    (flag row = true ↔
     ∃ index a r, index ∈ selected ∧ available !! index = Some a
                  ∧ results a = Some r ∧ r !! ComparisonTool.key m = None).


End Spec.

(** ** Sample data *)

Module Samples.
Import ComparisonTool.

(** An assessment with the given results. *)
Definition assessed (metal route : string) (l : list (string * Q)) : Assessment :=
  mkAssessment metal route (Some (list_to_map l)).

(** [a] with the value of metric [k] set to [v]. *)
Definition with_metric (a : Assessment) (k : string) (v : Q) : Assessment :=
  mkAssessment (metal_type a) (production_route a)
               (Some (<[k := v]> (default ∅ (results a)))).

Definition sustainabilityMetric : Metric :=
  mkMetric "sustainability_score" "Sustainability Score" "/100".

Definition carbonMetric : Metric :=
  mkMetric "carbon_footprint" "Carbon Footprint" "kg CO₂".

Definition score50 : Assessment :=
  assessed "steel" "primary" [("sustainability_score", 50%Q)].

Definition score100 : Assessment :=
  assessed "steel" "recycling" [("sustainability_score", 100%Q)].

Definition carbon80 : Assessment :=
  assessed "copper" "primary" [("carbon_footprint", 80%Q); ("water_usage", 3%Q)].

Definition noCarbon : Assessment :=
  assessed "copper" "secondary" [("water_usage", 3%Q)].

Definition carbon0 : Assessment :=
  assessed "copper" "secondary" [("carbon_footprint", 0%Q); ("water_usage", 3%Q)].

Definition score70 : Assessment :=
  assessed "zinc" "primary" [("sustainability_score", 70%Q)].

(** An assessment whose results mapping is there but empty. *)
Definition emptyResults : Assessment :=
  mkAssessment "aluminium" "primary" (Some ∅).

(** A state with the given available assessments and selection. *)
Definition stateOf (available : list Assessment) (selected : list nat) : State :=
  {| selectedAssessments := selected;
     comparisonResults := None;
     loading := false;
     error := "";
     tabValue := 0;
     availableAssessments := available |}.



Definition twoSelected : State :=
  stateOf [score50; score100] [0; 1]%nat.

(** A history with one assessment without results, and the state after the
    two available assessments have been added to the selection. *)
Definition sampleHistory : list Assessment := [score50; emptyResults; score100].

Definition twoAdded : State :=
  handle (Add 1) (handle (Add 0) (filterEffect sampleHistory initialState)).

(** A comparison service that always answers, and one that is down. *)
Definition answering (payload : list (option Assessment)) : outcome :=
  Resolved (mkData None).

Definition unreachable (payload : list (option Assessment)) : outcome :=
  Rejected None.

End Samples.

(** ** The charts of the comparison tool ([renderComparisonCharts]) *)

Module Charts.
Import JS ComparisonTool.

Record ChartData : Type := mkCharts {
  assessmentLabels : list string;
  carbonData : list Q;
  sustainabilityData : list Q;
  circularityData : list Q
}.

(** The bar label of a selected index:
    [`${assessment.metal_type} (${assessment.production_route})`]; reading a
    field of an index out of range throws. *)
Definition chartLabel (availableAssessments : list Assessment) (index : nat)
    : option string :=
  assessment ← availableAssessments !! index;
  Some (metal_type assessment +:+ " (" +:+ production_route assessment +:+ ")").

(** [Some None] is the [null] returned while there are no comparison
    results, [None] a [TypeError]. *)
Definition renderComparisonCharts (st : State) : option (option ChartData) :=
  match comparisonResults st with
  | None => Some None
  | Some _ =>
      labels ← mapM (chartLabel (availableAssessments st)) (selectedAssessments st);
      carbon ← metricValues (availableAssessments st) (selectedAssessments st)
                 "carbon_footprint";
      sustainability ← metricValues (availableAssessments st) (selectedAssessments st)
                         "sustainability_score";
      circularity ← metricValues (availableAssessments st) (selectedAssessments st)
                      "circularity_index";
      Some (Some (mkCharts labels carbon sustainability circularity))
  end.

End Charts.

(** ** The recent assessments of the dashboard *)

Module Recent.
Import JS Dashboard.

(** One entry of the list: the colour of its icon, chip and progress bar,
    the value of the progress bar, and whether a divider follows it. *)
Record Item : Type := mkItem {
  item_color : color;
  item_progress : Q;
  item_divider : bool
}.

Definition item (assessmentHistory : list Assessment) (index : nat)
    (assessment : Assessment) : Item :=
  {| item_color := recentColor assessment;
     item_progress := or_zero (r ← results assessment; r !! "sustainability_score");
     item_divider :=
       bool_decide (Z.of_nat index
                    < Z.min (Z.of_nat (length assessmentHistory) - 1) 4)%Z |}.

(** [None] is the "No assessments yet" panel, shown for an empty history. *)
Definition recentAssessments (assessmentHistory : list Assessment)
    : option (list Item) :=
  if bool_decide (length assessmentHistory = 0)%nat then None
  else Some (imap (item assessmentHistory) (take 5 assessmentHistory)).

End Recent.

(** ** The tab bar ([Navigation] in [Navigation.js]) *)

Module Navigation.

Record TabDef : Type := mkTab { tab_label : string; path : string }.

Definition tabs : list TabDef :=
  [ mkTab "Dashboard" "/";
    mkTab "New Assessment" "/assess";
    mkTab "Compare Pathways" "/compare";
    mkTab "Visualizations" "/visualize";
    mkTab "Reports" "/reports";
    mkTab "Help" "/help" ].

(** [list.findIndex(p)], counting from [i]; [-1] when no element
    satisfies [p]. *)
Fixpoint findIndex_from {A : Type} (i : Z) (p : A → bool) (l : list A) : Z :=
  match l with
  | [] => (-1)%Z
  | x :: rest => if p x then i else findIndex_from (i + 1)%Z p rest
  end.

Definition currentTab (pathname : string) : Z :=
  findIndex_from 0%Z (λ tab, bool_decide (path tab = pathname)) tabs.

(** The [value] of the tab bar: [currentTab >= 0 ? currentTab : 0]. *)
Definition tabValue (pathname : string) : Z :=
  if bool_decide (0 ≤ currentTab pathname)%Z then currentTab pathname else 0%Z.

(** [handleTabChange]: the path navigated to; reading [path] of a tab out
    of range throws ([None]). *)
Definition handleTabChange (newValue : nat) : option string :=
  tab ← tabs !! newValue; Some (path tab).

End Navigation.

(** ** The state of [App] *)

Module Shell.

Record AppState : Type := mkApp {
  currentAssessment : option Assessment;
  assessmentHistory : list Assessment
}.

Definition initialApp : AppState :=
  {| currentAssessment := None; assessmentHistory := [] |}.

(** [handleAssessmentComplete], on both pieces of state. *)
Definition handleAssessmentComplete (assessmentData : Assessment) (app : AppState)
    : AppState :=
  {| currentAssessment := Some assessmentData;
     assessmentHistory :=
       App.handleAssessmentComplete assessmentData (assessmentHistory app) |}.

(** The states of a session. *)
Inductive session : AppState → Prop :=
  | session_initial : session initialApp
  | session_complete assessmentData app :
      session app → session (handleAssessmentComplete assessmentData app).

End Shell.

(** ** The visualization dashboard ([VisualizationDashboard.js]) *)

Module VisualizationDashboard.
Import JS.

(** The effect on [currentAssessment] and [assessmentHistory]; the same
    effect opens [ReportsPage]. *)
Definition selectEffect (currentAssessment : option Assessment)
    (assessmentHistory : list Assessment)
    (selectedAssessment : option Assessment) : option Assessment :=
  match currentAssessment with
  | Some assessment => Some assessment
  | None =>
      if bool_decide (0 < length assessmentHistory)%nat
      then assessmentHistory !! (length assessmentHistory - 1)%nat
      else selectedAssessment
  end.

(** The assessment selected by a component mounted on an [App] state. *)
Definition mounted (app : Shell.AppState) : option Assessment :=
  selectEffect (Shell.currentAssessment app) (Shell.assessmentHistory app) None.

(** [renderEnvironmentalImpactChart]: the four values charted, [None] for
    the [null] returned without a selected assessment with results. *)
Definition environmentalImpactValues (selectedAssessment : option Assessment)
    : option (list Q) :=
  assessment ← selectedAssessment;
  r ← results assessment;
  Some [ or_zero (r !! "carbon_footprint");
         or_zero (r !! "energy_consumption");
         or_zero (r !! "water_usage");
         or_zero (r !! "waste_generation") ].

(** One gauge of [renderSustainabilityMetrics]. *)
Record Gauge : Type := mkGauge {
  gauge_name : string;
  gauge_value : Q;
  gauge_max : Q;
  gauge_bar : string
}.

(** [metric.value > 80 ? '#4caf50' : metric.value > 60 ? '#ff9800' : '#f44336'] *)
Definition barColor (value : Q) : string :=
  if gt (Num value) (Num 80) then "#4caf50"
  else if gt (Num value) (Num 60) then "#ff9800"
  else "#f44336".

Definition gauge (name : string) (value : Q) : Gauge :=
  {| gauge_name := name; gauge_value := value; gauge_max := 100;
     gauge_bar := barColor value |}.

Definition renderSustainabilityMetrics (selectedAssessment : option Assessment)
    : option (list Gauge) :=
  assessment ← selectedAssessment;
  r ← results assessment;
  Some [ gauge "Sustainability Score" (or_zero (r !! "sustainability_score"));
         gauge "Circularity Index" (or_zero (r !! "circularity_index") * 100)%Q;
         gauge "Material Efficiency" (or_zero (r !! "material_efficiency"));
         gauge "Recycling Potential" (or_zero (r !! "recycling_potential")) ].

End VisualizationDashboard.

(** ** The assessment wizard ([AssessmentForm.js]) *)

Module AssessmentForm.

Definition steps : list string :=
  ["Basic Information"; "Production Details"; "Environmental Data";
   "Review & Submit"].

Record FormState : Type := mkForm {
  activeStep : Z;
  loading : bool;
  error : string;
  success : string
}.

Definition initialForm : FormState :=
  {| activeStep := 0; loading := false; error := ""; success := "" |}.

Definition handleNext (st : FormState) : FormState :=
  {| activeStep := activeStep st + 1; loading := loading st;
     error := error st; success := success st |}.

Definition handleBack (st : FormState) : FormState :=
  {| activeStep := activeStep st - 1; loading := loading st;
     error := error st; success := success st |}.

(** The panel of [getStepContent]. *)
Inductive content : Type :=
  | BasicInformation | ProductionDetails | EnvironmentalData | Review
  | UnknownStep.

Definition getStepContent (step : Z) : content :=
  if bool_decide (step = 0)%Z then BasicInformation
  else if bool_decide (step = 1)%Z then ProductionDetails
  else if bool_decide (step = 2)%Z then EnvironmentalData
  else if bool_decide (step = 3)%Z then Review
  else UnknownStep.

(** How the awaited [axios.post] of [/api/assess] settles. *)
Inductive outcome : Type :=
  | Resolved (data : Assessment)
  | Rejected (server_error : option string).

(** [error.response?.data?.error || 'An error occurred during assessment'] *)
Definition surfaced (server_error : option string) : string :=
  match server_error with
  | Some msg => if bool_decide (msg = "") then "An error occurred during assessment" else msg
  | None => "An error occurred during assessment"
  end.

(** [onSubmit], given how the request settles, on the state of the form
    and on the state of [App], which [onAssessmentComplete] updates. *)
Definition onSubmit (settled : outcome) (st : FormState) (app : Shell.AppState)
    : FormState * Shell.AppState :=
  match settled with
  | Resolved data =>
      ({| activeStep := 0; loading := false; error := "";
          success := "Assessment completed successfully!" |},
       Shell.handleAssessmentComplete data app)
  | Rejected server_error =>
      ({| activeStep := activeStep st; loading := false;
          error := surfaced server_error; success := success st |},
       app)
  end.

(** The buttons of the wizard: Back is disabled on step 0; the right-hand
    button is Next on every step but the last ([steps.length - 1]), where
    it submits the form.  A submission is not tied to a step here: the
    form element can be submitted from any of them. *)
Inductive action : Type :=
  | Next
  | Back
  | Submit (settled : outcome).

Definition offered (st : FormState) (a : action) : Prop :=
  match a with
  | Next => activeStep st ≠ (Z.of_nat (length steps) - 1)%Z
  | Back => activeStep st ≠ 0%Z
  | Submit _ => True
  end.

Definition handle (a : action) (st : FormState) (app : Shell.AppState)
    : FormState * Shell.AppState :=
  match a with
  | Next => (handleNext st, app)
  | Back => (handleBack st, app)
  | Submit settled => onSubmit settled st app
  end.

(** The states of the wizard and of [App] reached by offered actions. *)
Inductive reachable : FormState → Shell.AppState → Prop :=
  | reach_initial app : Shell.session app → reachable initialForm app
  | reach_step st app a :
      reachable st app → offered st a →
      reachable (handle a st app).1 (handle a st app).2.

End AssessmentForm.

(** ** The report page ([ReportsPage]) *)

Module ReportsPage.

(** [useState] initial value of [reportSections]. *)
Definition initialSections : gmap string bool :=
  list_to_map
    [ ("executive_summary", true); ("assessment_details", true);
      ("environmental_impact", true); ("circularity_metrics", true);
      ("recommendations", true); ("methodology", true); ("appendix", false) ].

(** [{...prev, [section]: !prev[section]}]; a missing section reads as
    [undefined], whose negation is [true]. *)
Definition handleSectionChange (section : string) (prev : gmap string bool)
    : gmap string bool :=
  <[section := negb (default false (prev !! section))]> prev.

(** The sections listed with a check box: [Object.entries(reportSections)];
    a click toggles a listed section. *)
Inductive sections : gmap string bool → Prop :=
  | sections_initial : sections initialSections
  | sections_toggle section prev :
      sections prev → is_Some (prev !! section) →
      sections (handleSectionChange section prev).

(** The body of the request of [generateReport]. *)
Record ReportData : Type := mkReport {
  assessment : Assessment;
  report_type : string;
  report_sections : gmap string bool;
  custom_title : string;
  format : string;
  assessments : option (list Assessment)
}.

Record PageState : Type := mkPage {
  selectedAssessment : option Assessment;
  reportType : string;
  reportFormat : string;
  reportSections : gmap string bool;
  customTitle : string
}.

(** [customTitle || `LCA Report - ${selectedAssessment.metal_type}`] *)
Definition titleOf (customTitle : string) (selected : Assessment) : string :=
  if bool_decide (customTitle = "") then "LCA Report - " +:+ metal_type selected
  else customTitle.

(** The requests posted by [generateReport], in order. *)
Definition generateReport (assessmentHistory : list Assessment) (st : PageState)
    : list ReportData :=
  match selectedAssessment st with
  | None => []
  | Some selected =>
      [ {| assessment := selected;
           report_type := reportType st;
           report_sections := reportSections st;
           custom_title := titleOf (customTitle st) selected;
           format := reportFormat st;
           assessments :=
             if bool_decide (reportType st = "comparison")
                && bool_decide (1 < length assessmentHistory)%nat
             then Some assessmentHistory else None |} ]
  end.

End ReportsPage.

(** ** Orders used to state properties *)

Module Rank.

(** Severity of a band: good, warning, poor. *)
Definition severity (c : color) : nat :=
  match c with
  | Success => 0
  | Warning => 1
  | Error => 2
  | Primary => 0
  end.

(** The colours of the gauges, by band: the green, orange and red that
    [App] also uses for its success and error notifications. *)
Definition hexOf (c : color) : string :=
  match c with
  | Success => "#4caf50"
  | Warning => "#ff9800"
  | Error => "#f44336"
  | Primary => ""
  end.

End Rank.

(** ** Sample pages *)

Module PageSamples.

(** The page state of a comparison report on [score70] with no title
    typed. *)
Definition reportPage : ReportsPage.PageState :=
  {| ReportsPage.selectedAssessment := Some Samples.score70;
     ReportsPage.reportType := "comparison";
     ReportsPage.reportFormat := "pdf";
     ReportsPage.reportSections := ReportsPage.initialSections;
     ReportsPage.customTitle := "" |}.

End PageSamples.

(** ** Properties of the number model *)

Section Numbers.
Import JS.

Lemma lt_Num (x y : Q) : lt (Num x) (Num y) = true ↔ (x < y)%Q.
Proof.
  simpl. rewrite negb_true_iff. split.
  - intros H. apply Qnot_le_lt. intros Hle.
    apply Qle_bool_iff in Hle. congruence.
  - intros H. destruct (Qle_bool y x) eqn:E; [|done].
    apply Qle_bool_iff in E. exfalso. exact (Qlt_not_le _ _ H E).
Qed.

Lemma lt_Num_false (x y : Q) : lt (Num x) (Num y) = false ↔ (y <= x)%Q.
Proof.
  simpl. rewrite negb_false_iff. apply Qle_bool_iff.
Qed.

(** The fold of [Math.min], started from a finite number. *)
Lemma min_fold_from (values : list Q) (m0 : Q) :
  ∃ m, fold_left (λ lowest x, if lt (Num x) lowest then Num x else lowest)
                 values (Num m0) = Num m
       ∧ (m = m0 ∨ m ∈ values) ∧ (m <= m0)%Q
       ∧ Forall (λ v, (m <= v)%Q) values.
Proof.
  revert m0. induction values as [|x values IH]; intros m0.
  - exists m0. split_and!; [done|by left|apply Qle_refl|constructor].
  - cbn [fold_left]. destruct (lt (Num x) (Num m0)) eqn:E.
    + apply lt_Num in E. destruct (IH x) as (m & Hm & Hin & Hle & Hall).
      exists m. split_and!; [done| |..].
      * right. destruct Hin as [->|Hin]; [left|by right].
      * apply Qle_trans with x; [done|by apply Qlt_le_weak].
      * by constructor.
    + apply lt_Num_false in E. destruct (IH m0) as (m & Hm & Hin & Hle & Hall).
      exists m. split_and!; [done| |done|].
      * destruct Hin as [->|Hin]; [by left|right; by right].
      * constructor; [by apply Qle_trans with m0|done].
Qed.

(** The fold of [Math.max], started from a finite number. *)
Lemma max_fold_from (values : list Q) (m0 : Q) :
  ∃ m, fold_left (λ highest x, if gt (Num x) highest then Num x else highest)
                 values (Num m0) = Num m
       ∧ (m = m0 ∨ m ∈ values) ∧ (m0 <= m)%Q
       ∧ Forall (λ v, (v <= m)%Q) values.
Proof.
  revert m0. induction values as [|x values IH]; intros m0.
  - exists m0. split_and!; [done|by left|apply Qle_refl|constructor].
  - cbn [fold_left]. destruct (gt (Num x) (Num m0)) eqn:E; unfold gt in E.
    + apply lt_Num in E. destruct (IH x) as (m & Hm & Hin & Hle & Hall).
      exists m. split_and!; [done| |..].
      * right. destruct Hin as [->|Hin]; [left|by right].
      * apply Qle_trans with x; [by apply Qlt_le_weak|done].
      * by constructor.
    + apply lt_Num_false in E. destruct (IH m0) as (m & Hm & Hin & Hle & Hall).
      exists m. split_and!; [done| |done|].
      * destruct Hin as [->|Hin]; [by left|right; by right].
      * constructor; [by apply Qle_trans with m0|done].
Qed.

(** On a list that is not empty [Math.min] is a least element. *)
Lemma Math_min_least (values : list Q) :
  values ≠ [] →
  ∃ m, Math_min values = Num m ∧ m ∈ values ∧ Forall (λ v, (m <= v)%Q) values.
Proof.
  destruct values as [|x values]; [done|]. intros _.
  unfold Math_min. cbn [fold_left lt].
  destruct (min_fold_from values x) as (m & Hm & Hin & Hle & Hall).
  exists m. split_and!; [done| |by constructor].
  destruct Hin as [->|Hin]; [left|by right].
Qed.

(** On a list that is not empty [Math.max] is a greatest element. *)
Lemma Math_max_greatest (values : list Q) :
  values ≠ [] →
  ∃ m, Math_max values = Num m ∧ m ∈ values ∧ Forall (λ v, (v <= m)%Q) values.
Proof.
  destruct values as [|x values]; [done|]. intros _.
  unfold Math_max. cbn [fold_left gt lt].
  destruct (max_fold_from values x) as (m & Hm & Hin & Hle & Hall).
  exists m. split_and!; [done| |by constructor].
  destruct Hin as [->|Hin]; [left|by right].
Qed.

Lemma strict_eq_refl_Num (x : Q) : strict_eq (Num x) (Num x) = true.
Proof. simpl. apply Qeq_bool_iff. reflexivity. Qed.

(** [indexOf] returns the first position that holds the value. *)
Lemma indexOf_from_first (i : Z) (values : list Q) (v : number) :
  (∃ x, x ∈ values ∧ strict_eq (Num x) v = true) →
  ∃ (n : nat) (x : Q),
    indexOf_from i values v = (i + Z.of_nat n)%Z
    ∧ values !! n = Some x
    ∧ strict_eq (Num x) v = true
    ∧ ∀ (j : nat) (y : Q), (j < n)%nat → values !! j = Some y →
                           strict_eq (Num y) v = false.
Proof.
  revert i. induction values as [|x values IH]; intros i (w & Hin & Hw).
  - by apply elem_of_nil in Hin.
  - cbn [indexOf_from]. destruct (strict_eq (Num x) v) eqn:E.
    + exists 0%nat, x. split_and!; [lia|done|done|]. intros j y Hj. lia.
    + assert (w ∈ values) as Hin'.
      { apply elem_of_cons in Hin as [->|Hin]; [congruence|done]. }
      destruct (IH (i + 1)%Z) as (n & y & Hidx & Hlook & Heq & Hbefore);
        [by exists w|].
      exists (S n), y. split_and!; [lia|done|done|].
      intros [|j] z Hj Hz.
      * simpl in Hz. by simplify_eq.
      * simpl in Hz. apply (Hbefore j z); [lia|done].
Qed.

End Numbers.

(** ** The comparison table: best value, winner, improvement *)

Section Comparison.
Import JS ComparisonTool.



(** Whatever the key, the best value of a list that is not empty is one of
    its elements. *)
Lemma bestValue_elem (k : string) (values : list Q) :
  values ≠ [] → ∃ b, bestValue k values = Num b ∧ b ∈ values.
Proof.
  intros Hne. unfold bestValue.
  destruct (_ || _).
  - destruct (Math_min_least values Hne) as (b & ? & ? & _). by exists b.
  - destruct (Math_max_greatest values Hne) as (b & ? & ? & _). by exists b.
Qed.





(** The winning index is the first position that holds the best value. *)
Lemma bestIndex_first (k : string) (values : list Q) :
  values ≠ [] →
  ∃ (i : nat) (x : Q),
    bestIndex k values = Z.of_nat i
    ∧ values !! i = Some x
    ∧ strict_eq (Num x) (bestValue k values) = true
    ∧ ∀ (j : nat) (y : Q), (j < i)%nat → values !! j = Some y →
                           strict_eq (Num y) (bestValue k values) = false.
Proof.
  intros Hne. destruct (bestValue_elem k values Hne) as (b & Hb & Hin).
  unfold bestIndex, indexOf. rewrite Hb.
  destruct (indexOf_from_first 0 values (Num b)) as (n & x & Hidx & ?);
    [exists b; split; [done|apply strict_eq_refl_Num]|].
  exists n, x. split; [lia|done].
Qed.

(** On the three minimised keys aside, every key is maximised, also one
    that is not a row of the table. *)
Remark bestValue_outside_table (values : list Q) :
  bestValue "waste_generation" values = Math_max values
  ∧ bestValue "recycling_potential" values = Math_max values.
Proof. split; reflexivity. Qed.

(** C4. For every metric and every selection that renders with at least
    one record, the winning index is a position that holds the best value
    and no earlier position holds it: among the records that achieve the
    best value the one of lowest index wins.  It is the record whose chip
    is drawn as the best one and whose number, counted from 1, is shown in
    the last column.  The row is a function of the records and the metric
    only. *)
Theorem first_best_index_wins
    (available : list Assessment) (selected : list nat) (m : Metric)
    (values : list Q) :
  metricValues available selected (key m) = Some values →
  values ≠ [] →
  ∃ (i : nat) (x : Q) (row : Row) (cell : Cell),
    bestIndex (key m) values = Z.of_nat i
    ∧ values !! i = Some x
    ∧ strict_eq (Num x) (bestValue (key m) values) = true
    ∧ (∀ (j : nat) (y : Q), (j < i)%nat → values !! j = Some y →
         strict_eq (Num y) (bestValue (key m) values) = false)
    ∧ renderRow available selected m = Some row
    ∧ row_best row = Some (Z.of_nat i + 1)%Z
    ∧ row_cells row !! i = Some cell
    ∧ chip_color cell = Success.
Proof.
  intros Hvalues Hne.
  destruct (bestIndex_first (key m) values Hne) as (i & x & Hidx & Hx & Heq & Hfirst).
  pose proof (length_mapM _ _ _ Hvalues) as Hlen.
  pose proof (lookup_lt_Some _ _ _ Hx) as Hi.
  unfold renderRow. rewrite Hvalues. cbn.
  eexists i, x, _, _. split_and!; [done..|reflexivity| | |].
  - cbn [row_best]. unfold bestLabel. rewrite Hidx.
    by rewrite bool_decide_eq_true_2 by lia.
  - cbn [row_cells]. rewrite list_lookup_imap, Hx. reflexivity.
  - cbn [chip_color valueCell]. rewrite Hidx.
    by rewrite bool_decide_eq_true_2 by done.
Qed.

Lemma first_best_index_wins_witness :
  metricValues [Samples.carbon0; Samples.carbon0; Samples.carbon80]
               [0; 1; 2]%nat "carbon_footprint" = Some [0; 0; 80]%Q
  ∧ [0; 0; 80]%Q ≠ []
  ∧ ∃ (i : nat) (x : Q) (row : Row) (cell : Cell),
      bestIndex "carbon_footprint" [0; 0; 80]%Q = Z.of_nat i
      ∧ [0; 0; 80]%Q !! i = Some x
      ∧ strict_eq (Num x) (bestValue "carbon_footprint" [0; 0; 80]%Q) = true
      ∧ (∀ (j : nat) (y : Q), (j < i)%nat → [0; 0; 80]%Q !! j = Some y →
           strict_eq (Num y) (bestValue "carbon_footprint" [0; 0; 80]%Q) = false)
      ∧ renderRow [Samples.carbon0; Samples.carbon0; Samples.carbon80]
                  [0; 1; 2]%nat Samples.carbonMetric = Some row
      ∧ row_best row = Some (Z.of_nat i + 1)%Z
      ∧ row_cells row !! i = Some cell
      ∧ chip_color cell = Success.
Proof.
  assert (metricValues [Samples.carbon0; Samples.carbon0; Samples.carbon80]
            [0; 1; 2]%nat "carbon_footprint" = Some [0; 0; 80]%Q) as Hvalues
    by (vm_compute; reflexivity).
  assert ([0; 0; 80]%Q ≠ []) as Hne by discriminate.
  split_and!; [exact Hvalues|exact Hne|].
  exact (first_best_index_wins _ _ Samples.carbonMetric _ Hvalues Hne).
Defined.

(** Ties, on both directions: the first of the equal best values wins. *)
Example tie_lower : bestIndex "carbon_footprint" [60; 40; 40]%Q = 1%Z.
Proof. reflexivity. Qed.

Example tie_higher : bestIndex "sustainability_score" [85; 70; 85]%Q = 0%Z.
Proof. reflexivity. Qed.

End Comparison.

(** ** The trend icon *)

Section Improvement.
Import JS ComparisonTool Samples.

(** On lower-is-better metrics the source's formula is the specified one. *)
Lemma improvement_lower_is_better (current baseline : Q) :
  improvement current baseline = Spec.improvement Spec.LowerBetter current baseline.
Proof. reflexivity. Qed.

(** C1. The improvement of [getImprovementIcon] is computed as
    (baseline − value) / baseline × 100 whatever the metric.  On the
    higher-is-better metric sustainability_score with baseline 50 and value
    100 it is −100 where the specified (value − baseline) / baseline × 100
    is +100: the row marks the second record as best and gives it the
    downward icon. *)
Theorem improvement_ignores_directionality :
  Spec.directionality_of "sustainability_score" = Some Spec.HigherBetter
  ∧ strict_eq (improvement 100 50) (Num (-100)) = true
  ∧ strict_eq (Spec.improvement Spec.HigherBetter 100 50) (Num 100) = true
  ∧ getImprovementIcon 100 50 = TrendingDown
  ∧ renderRow [score50; score100] [0; 1]%nat sustainabilityMetric
    = Some {| row_key := "sustainability_score";
              row_label := "Sustainability Score";
              row_cells := [ mkCell 50 "/100" Error None;
                             mkCell 100 "/100" Success (Some TrendingDown) ];
              row_best := Some 2%Z |}.
Proof. split_and!; vm_compute; reflexivity. Qed.

(** The three outcomes of a division by a zero baseline. *)
Lemma improvement_zero_baseline (current : Q) :
  improvement current 0
  = if Qeq_bool current 0 then NaN
    else if Qle_bool current 0 then Infinity else NegInfinity.
Proof.
  unfold improvement, div, sub. change (Qeq_bool 0 0) with true. cbn [mul_pos].
  destruct (Qeq_bool current 0) eqn:E0.
  - apply Qeq_bool_iff in E0.
    assert (Qeq_bool (0 - current) 0 = true) as ->; [|done].
    apply Qeq_bool_iff. lra.
  - apply Qeq_bool_neq in E0.
    assert (Qeq_bool (0 - current) 0 = false) as ->.
    { destruct (Qeq_bool (0 - current) 0) eqn:E; [|done].
      apply Qeq_bool_iff in E. exfalso. apply E0. lra. }
    destruct (Qle_bool current 0) eqn:E1.
    + apply Qle_bool_iff in E1.
      assert (Qle_bool 0 (0 - current) = true) as ->; [|done].
      apply Qle_bool_iff. lra.
    + assert (Qle_bool 0 (0 - current) = false) as ->; [|done].
      destruct (Qle_bool 0 (0 - current)) eqn:E; [|done].
      apply Qle_bool_iff in E.
      assert (Qle_bool current 0 = true) as E'; [|congruence].
      apply Qle_bool_iff. lra.
Qed.

Lemma icon_zero_baseline (current : Q) :
  getImprovementIcon current 0
  = if Qeq_bool current 0 then Remove
    else if Qle_bool current 0 then TrendingUp else TrendingDown.
Proof.
  unfold getImprovementIcon. rewrite improvement_zero_baseline.
  destruct (Qeq_bool current 0); [done|]. by destruct (Qle_bool current 0).
Qed.

(** The claim C2 fails: with baseline 0 and value 40 the improvement is
    the number [-Infinity], shown as the downward icon, where the guarded
    improvement of the specification is null. *)
Lemma zero_baseline_is_not_null :
  improvement 40 0 = NegInfinity
  ∧ getImprovementIcon 40 0 = TrendingDown
  ∧ Spec.guarded_improvement Spec.LowerBetter 40 0 = None
  ∧ Some (improvement 40 0) ≠ Spec.guarded_improvement Spec.LowerBetter 40 0.
Proof. split_and!; [reflexivity..|discriminate]. Qed.

(** C2, amended. For every comparison that renders and every metric whose
    baseline (index-0) value is 0, no exception is raised: the row is
    rendered, and the cell of every other record carries an icon.  The
    improvement is not null but the outcome of the division by zero: NaN
    for a value of 0 (neutral icon), -Infinity for a positive value
    (downward icon), +Infinity for a negative value (upward icon). *)
Theorem zero_baseline_improvement
    (available : list Assessment) (selected : list nat) (m : Metric)
    (values : list Q) (i : nat) (v : Q) :
  metricValues available selected (key m) = Some values →
  values !! 0%nat = Some 0%Q →
  (0 < i)%nat →
  values !! i = Some v →
  ∃ row cell,
    renderRow available selected m = Some row
    ∧ row_cells row !! i = Some cell
    ∧ trend cell = Some (getImprovementIcon v 0)
    ∧ improvement v 0
      = (if Qeq_bool v 0 then NaN
         else if Qle_bool v 0 then Infinity else NegInfinity)
    ∧ getImprovementIcon v 0
      = (if Qeq_bool v 0 then Remove
         else if Qle_bool v 0 then TrendingUp else TrendingDown).
Proof.
  intros Hvalues Hbase Hi Hv. unfold renderRow. rewrite Hvalues. cbn.
  eexists _, _. split; [reflexivity|]. cbn [row_cells].
  rewrite list_lookup_imap, Hv. cbn. split; [reflexivity|].
  unfold valueCell. cbn [trend]. rewrite Hbase.
  rewrite bool_decide_eq_true_2 by done. cbn [default].
  split_and!; [done|apply improvement_zero_baseline|apply icon_zero_baseline].
Qed.

Lemma zero_baseline_improvement_witness :
  metricValues [carbon0; carbon80] [0; 1]%nat "carbon_footprint"
    = Some [0; 80]%Q
  ∧ [0; 80]%Q !! 0%nat = Some 0%Q
  ∧ (0 < 1)%nat
  ∧ [0; 80]%Q !! 1%nat = Some 80%Q
  ∧ ∃ row cell,
      renderRow [carbon0; carbon80] [0; 1]%nat carbonMetric = Some row
      ∧ row_cells row !! 1%nat = Some cell
      ∧ trend cell = Some (getImprovementIcon 80 0)
      ∧ improvement 80 0
        = (if Qeq_bool 80 0 then NaN
           else if Qle_bool 80 0 then Infinity else NegInfinity)
      ∧ getImprovementIcon 80 0
        = (if Qeq_bool 80 0 then Remove
           else if Qle_bool 80 0 then TrendingUp else TrendingDown).
Proof.
  assert (metricValues [carbon0; carbon80] [0; 1]%nat "carbon_footprint"
          = Some [0; 80]%Q) as H1 by (vm_compute; reflexivity).
  assert ([0; 80]%Q !! 0%nat = Some 0%Q) as H2 by reflexivity.
  assert (0 < 1)%nat as H3 by lia.
  assert ([0; 80]%Q !! 1%nat = Some 80%Q) as H4 by reflexivity.
  split_and!; [exact H1|exact H2|exact H3|exact H4|].
  exact (zero_baseline_improvement [carbon0; carbon80] [0; 1]%nat carbonMetric
           [0; 80]%Q 1 80%Q H1 H2 H3 H4).
Defined.

End Improvement.

(** ** Severity banding in the two views *)

Section Banding.
Import JS ComparisonTool Samples.

(** The banding of the comparison view has the cut-offs 50 and 100
    (lower-is-better) and 80 and 60 (higher-is-better). *)
Lemma getMetricColor_lower (k : string) (value : Q) :
  Spec.directionality_of k = Some Spec.LowerBetter →
  getMetricColor value k
  = if lt (Num value) (Num 50) then Success
    else if lt (Num value) (Num 100) then Warning else Error.
Proof.
  unfold Spec.directionality_of, getMetricColor.
  destruct (includes lowerIsBetter k); [done|].
  by destruct (includes higherIsBetter k).
Qed.

Lemma getMetricColor_higher (k : string) (value : Q) :
  Spec.directionality_of k = Some Spec.HigherBetter →
  getMetricColor value k
  = if gt (Num value) (Num 80) then Success
    else if gt (Num value) (Num 60) then Warning else Error.
Proof.
  unfold Spec.directionality_of, getMetricColor.
  destruct (includes lowerIsBetter k); [done|].
  by destruct (includes higherIsBetter k).
Qed.

(** The dashboard colours every score above 0.8 as good. *)
Lemma getImpactColor_above (value : Q) :
  (0.8 < value)%Q →
  Dashboard.getImpactColor (Some value) "sustainability" = Success.
Proof.
  intros H. unfold Dashboard.getImpactColor.
  change (bool_decide ("sustainability" = "carbon")) with false.
  change (bool_decide ("sustainability" = "sustainability")) with true.
  cbn [orb]. unfold gt.
  assert (lt (Num 0.8) (Num value) = true) as -> by by apply lt_Num.
  reflexivity.
Qed.

(** C5. The two views do not band alike.  A sustainability score of 70 is
    a warning in the comparison view ([getMetricColor]) and good in the
    dashboard ([getImpactColor], as called for the recent assessments);
    a carbon footprint of 150 is poor in the comparison view and a warning
    for the dashboard's function. *)
Theorem banding_differs_between_views :
  getMetricColor 70 "sustainability_score" = Warning
  ∧ Dashboard.getImpactColor (Some 70%Q) "sustainability" = Success
  ∧ Dashboard.recentColor score70 = Success
  ∧ getMetricColor 150 "carbon_footprint" = Error
  ∧ Dashboard.getImpactColor (Some 150%Q) "carbon" = Warning.
Proof. split_and!; vm_compute; reflexivity. Qed.

End Banding.

(** ** Metrics missing from a record *)

Section MissingMetric.
Import JS ComparisonTool Samples.

(** The claim C6 fails on its second half: a record that lacks the key and
    a record that holds the value 0 yield the same row, so that nothing in
    the output marks the metric as incomplete. *)
Lemma no_incomplete_marker :
  renderRow [carbon80; noCarbon] [0; 1]%nat carbonMetric
  = renderRow [carbon80; carbon0] [0; 1]%nat carbonMetric
  ∧ ¬ ∃ flag, Spec.marks_incomplete flag.
Proof.
  split; [vm_compute; reflexivity|].
  intros [flag Hflag].
  destruct (renderRow [carbon80; noCarbon] [0; 1]%nat carbonMetric) as [row|] eqn:E;
    [|vm_compute in E; discriminate].
  assert (renderRow [carbon80; carbon0] [0; 1]%nat carbonMetric = Some row) as E'.
  { rewrite <- E. vm_compute. reflexivity. }
  assert (flag row = true) as Hset.
  { apply (Hflag _ _ _ _ E).
    exists 1%nat, noCarbon. eexists. split_and!; [set_solver|reflexivity..]. }
  apply (Hflag _ _ _ _ E') in Hset as (index & a & r & Hin & Ha & Hr & Hk).
  apply elem_of_cons in Hin as [->|Hin].
  { injection Ha as <-. injection Hr as <-. vm_compute in Hk. discriminate. }
  apply elem_of_cons in Hin as [->|Hin].
  { injection Ha as <-. injection Hr as <-. vm_compute in Hk. discriminate. }
  by apply elem_of_nil in Hin.
Qed.

Lemma readMetric_with_zero (available : list Assessment) (k : string)
    (index : nat) (a : Assessment) (r : gmap string Q) (j : nat) :
  available !! index = Some a → results a = Some r → r !! k = None →
  readMetric (<[index := with_metric a k 0]> available) k j
  = readMetric available k j.
Proof.
  intros Ha Hr Hk. unfold readMetric.
  destruct (decide (j = index)) as [->|Hne].
  - rewrite list_lookup_insert_eq by (by eapply lookup_lt_Some).
    rewrite Ha. cbn. rewrite Hr. cbn. rewrite lookup_insert_eq, Hk. reflexivity.
  - by rewrite list_lookup_insert_ne.
Qed.

(** C6, amended. A selected record whose results lack the metric key
    contributes the value 0 to the row of that metric, and this is not an
    error: when every selected index has results the row is rendered.  The
    row is the one rendered for the same record holding the value 0 under
    that key: the output carries no marker of the missing key. *)
Theorem missing_metric_counts_as_zero
    (available : list Assessment) (selected : list nat) (m : Metric)
    (p index : nat) (a : Assessment) (r : gmap string Q) :
  selected !! p = Some index →
  available !! index = Some a →
  results a = Some r →
  r !! key m = None →
  (∀ j, j ∈ selected → ∃ a' r', available !! j = Some a' ∧ results a' = Some r') →
  ∃ values row,
    metricValues available selected (key m) = Some values
    ∧ values !! p = Some 0%Q
    ∧ renderRow available selected m = Some row
    ∧ renderRow (<[index := with_metric a (key m) 0]> available) selected m
      = Some row.
Proof.
  intros Hp Ha Hr Hk Hall.
  assert (is_Some (metricValues available selected (key m))) as [values Hvalues].
  { apply mapM_is_Some_2, Forall_forall. intros j Hj.
    destruct (Hall j Hj) as (a' & r' & Ha' & Hr').
    unfold compose, readMetric. rewrite Ha'. cbn. rewrite Hr'. cbn. done. }
  assert (values !! p = Some 0%Q) as Hzero.
  { apply mapM_Some_1 in Hvalues.
    destruct (Forall2_lookup_l _ _ _ _ _ Hvalues Hp) as (y & Hy & Hread).
    unfold readMetric in Hread. rewrite Ha in Hread. cbn in Hread. rewrite Hr in Hread. cbn in Hread.
    rewrite Hk in Hread. cbn in Hread. by simplify_eq. }
  assert (metricValues (<[index := with_metric a (key m) 0]> available)
                       selected (key m) = Some values) as Hvalues'.
  { rewrite <- Hvalues. apply mapM_ext. intros j.
    apply (readMetric_with_zero available (key m) index a r j Ha Hr Hk). }
  unfold renderRow. rewrite Hvalues, Hvalues'. cbn.
  eexists _, _. split_and!; done.
Qed.

Lemma missing_metric_counts_as_zero_witness :
  ∃ values row,
    metricValues [carbon80; noCarbon] [0; 1]%nat "carbon_footprint" = Some values
    ∧ values !! 1%nat = Some 0%Q
    ∧ renderRow [carbon80; noCarbon] [0; 1]%nat carbonMetric = Some row
    ∧ renderRow (<[1%nat := with_metric noCarbon "carbon_footprint" 0]>
                   [carbon80; noCarbon]) [0; 1]%nat carbonMetric
      = Some row.
Proof.
  apply (missing_metric_counts_as_zero [carbon80; noCarbon] [0; 1]%nat
           carbonMetric 1 1 noCarbon (list_to_map [("water_usage", 3%Q)])).
  - reflexivity.
  - reflexivity.
  - reflexivity.
  - vm_compute. reflexivity.
  - intros j Hj.
    apply elem_of_cons in Hj as [->|Hj]; [by eexists _, _|].
    apply elem_of_cons in Hj as [->|Hj]; [by eexists _, _|].
    by apply elem_of_nil in Hj.
Defined.

End MissingMetric.

(** ** Selection and the comparison request *)

Section Selection.
Import ComparisonTool Samples.

(** The handlers never touch the available assessments. *)
Lemma reachable_available (assessmentHistory : list Assessment) (st : State) :
  reachable assessmentHistory st →
  availableAssessments st
  = filter (λ assessment, hasResults assessment = true) assessmentHistory.
Proof.
  induction 1 as [|st a Hreach IH Hoff]; [reflexivity|].
  destruct a as [i|i]; cbn [handle].
  - unfold handleAddAssessment. by destruct (_ && _).
  - done.
Qed.

(** The invariant of the selection along the offered actions. *)
Lemma reachable_selection (assessmentHistory : list Assessment) (st : State) :
  reachable assessmentHistory st →
  NoDup (selectedAssessments st)
  ∧ (length (selectedAssessments st) ≤ 4)%nat
  ∧ ∀ index, index ∈ selectedAssessments st →
             (index < length (availableAssessments st))%nat.
Proof.
  induction 1 as [|st a Hreach (Hnd & Hlen & Hidx) Hoff].
  - cbn. split_and!; [constructor|lia|]. intros index Hin.
    by apply elem_of_nil in Hin.
  - destruct a as [i|i]; cbn [handle].
    + unfold handleAddAssessment.
      destruct (bool_decide (length (selectedAssessments st) < 4)%nat) eqn:E4;
        [|by cbn].
      destruct (bool_decide (i ∈ selectedAssessments st)) eqn:Ein; [by cbn|].
      apply bool_decide_eq_true in E4. apply bool_decide_eq_false in Ein.
      cbn. split_and!.
      * apply NoDup_app. split_and!; [done| |apply NoDup_singleton].
        intros x Hx ->%list_elem_of_singleton. done.
      * rewrite length_app. cbn. lia.
      * intros index [Hin| ->%list_elem_of_singleton]%elem_of_app; [auto|].
        exact Hoff.
    + cbn. split_and!.
      * by apply NoDup_filter.
      * etrans; [apply length_filter|done].
      * intros index [_ Hin]%list_elem_of_filter. auto.
Qed.

(** A position below the length of the available assessments holds an
    assessment with results that are not empty. *)
Lemma available_hasResults (assessmentHistory : list Assessment) (st : State)
    (index : nat) :
  reachable assessmentHistory st →
  (index < length (availableAssessments st))%nat →
  ∃ a r, availableAssessments st !! index = Some a
         ∧ a ∈ assessmentHistory
         ∧ hasResults a = true
         ∧ results a = Some r ∧ r ≠ ∅.
Proof.
  intros Hreach Hlt.
  destruct (lookup_lt_is_Some_2 _ _ Hlt) as [a Ha].
  assert (a ∈ availableAssessments st) as Hin by (by eapply list_elem_of_lookup_2).
  rewrite (reachable_available _ _ Hreach) in Hin.
  apply list_elem_of_filter in Hin as [Hres Hin].
  unfold hasResults in Hres. destruct (results a) as [r|] eqn:Er; [|done].
  apply bool_decide_eq_true in Hres.
  exists a, r. split_and!; [done|done|by unfold hasResults; rewrite Er; apply bool_decide_eq_true|done|].
  intros ->. rewrite map_size_empty in Hres. lia.
Qed.

(** C10. After every offered add or remove, starting from the mounted
    component, the selection holds pairwise distinct indices, at most four
    of them, and every index is the position of an available assessment,
    taken from the history, whose results mapping is there and not
    empty. *)
Theorem selection_invariant (assessmentHistory : list Assessment) (st : State) :
  reachable assessmentHistory st →
  NoDup (selectedAssessments st)
  ∧ (length (selectedAssessments st) ≤ 4)%nat
  ∧ ∀ index, index ∈ selectedAssessments st →
      ∃ a r, availableAssessments st !! index = Some a
             ∧ a ∈ assessmentHistory
             ∧ results a = Some r ∧ r ≠ ∅.
Proof.
  intros Hreach.
  destruct (reachable_selection _ _ Hreach) as (Hnd & Hlen & Hidx).
  split_and!; [done..|]. intros index Hin.
  destruct (available_hasResults _ _ index Hreach (Hidx _ Hin))
    as (a & r & ? & ? & _ & ? & ?).
  by exists a, r.
Qed.

Lemma selection_invariant_witness :
  reachable sampleHistory twoAdded
  ∧ NoDup (selectedAssessments twoAdded)
  ∧ (length (selectedAssessments twoAdded) ≤ 4)%nat
  ∧ ∀ index, index ∈ selectedAssessments twoAdded →
      ∃ a r, availableAssessments twoAdded !! index = Some a
             ∧ a ∈ sampleHistory
             ∧ results a = Some r ∧ r ≠ ∅.
Proof.
  assert (reachable sampleHistory twoAdded) as Hreach.
  { unfold twoAdded.
    apply reach_step; [apply reach_step; [apply reach_mount|]|];
      vm_compute; lia. }
  split; [exact Hreach|exact (selection_invariant sampleHistory twoAdded Hreach)].
Defined.





End Selection.

(** ** The assessment history *)

Section History.
Import App.

Lemma history_length (h : list Assessment) : history h → (length h ≤ 10)%nat.
Proof.
  induction 1 as [|x prev _ IH]; cbn; [lia|].
  rewrite length_take. lia.
Qed.

(** C8. Along a session the history holds at most 10 records.  Completing
    an assessment puts the new record first and keeps the records already
    there in their order, each one position later and unchanged: all of
    them while fewer than 10 are held, and all but the last, which is the
    oldest, once 10 are held. *)
Theorem history_bounded_newest_first (x : Assessment) (prev : list Assessment) :
  history prev →
  history (handleAssessmentComplete x prev)
  ∧ (length (handleAssessmentComplete x prev) ≤ 10)%nat
  ∧ length (handleAssessmentComplete x prev) = Nat.min 10 (S (length prev))
  ∧ handleAssessmentComplete x prev !! 0%nat = Some x
  ∧ (∀ i, (i < 9)%nat → handleAssessmentComplete x prev !! S i = prev !! i)
  ∧ ((length prev < 10)%nat → handleAssessmentComplete x prev = x :: prev)
  ∧ ((length prev = 10)%nat →
     ∃ kept oldest, prev = (kept ++ [oldest])%list
                    ∧ handleAssessmentComplete x prev = x :: kept).
Proof.
  intros Hprev. pose proof (history_length prev Hprev) as Hlen.
  assert (history (handleAssessmentComplete x prev)) as Hnext
    by (by constructor).
  split_and!.
  - done.
  - by apply history_length.
  - unfold handleAssessmentComplete. cbn [length]. rewrite length_take. lia.
  - reflexivity.
  - intros i Hi. unfold handleAssessmentComplete. cbn.
    by apply lookup_take_lt.
  - intros Hlt. unfold handleAssessmentComplete. f_equal. apply take_ge. lia.
  - intros Hfull. unfold handleAssessmentComplete.
    destruct (prev !! 9%nat) as [oldest|] eqn:E.
    + exists (take 9 prev), oldest. split; [|done].
      rewrite <- (take_S_r _ _ _ E). symmetry. apply take_ge. lia.
    + apply lookup_ge_None in E. lia.
Qed.

Lemma history_bounded_newest_first_witness :
  history []
  ∧ history (handleAssessmentComplete Samples.score50 [])
  ∧ (length (handleAssessmentComplete Samples.score50 []) ≤ 10)%nat
  ∧ handleAssessmentComplete Samples.score50 [] !! 0%nat = Some Samples.score50.
Proof.
  destruct (history_bounded_newest_first Samples.score50 [] history_initial)
    as (H1 & H2 & _ & H4 & _).
  split_and!; [exact history_initial|exact H1|exact H2|exact H4].
Defined.

(** Eleven completions: the first record completed is the one evicted. *)
Example eleventh_evicts_oldest :
  let names := ["a"; "b"; "c"; "d"; "e"; "f"; "g"; "h"; "i"; "j"; "k"] in
  let h := foldl (λ prev n, handleAssessmentComplete
                              (mkAssessment n "primary" None) prev) [] names in
  metal_type <$> h = ["k"; "j"; "i"; "h"; "g"; "f"; "e"; "d"; "c"; "b"].
Proof. reflexivity. Qed.

End History.

(** ** The dashboard statistics *)

Section Aggregation.
Import JS Dashboard.

(** C9. The statistics of a dashboard mounted on an empty history have
    every field equal to 0; the effect computes nothing for an empty
    history (no division takes place) and leaves the statistics as they
    are. *)
Theorem aggregate_empty_history :
  aggregate [] = {| totalAssessments := 0;
                    avgCarbonFootprint := Num 0;
                    avgSustainabilityScore := Num 0;
                    avgCircularityIndex := Num 0 |}
  ∧ ∀ dashboardStats, statsEffect [] dashboardStats = dashboardStats.
Proof. split; [reflexivity|]. intros dashboardStats. reflexivity. Qed.

(** One record: the averages are its values. *)
Example aggregate_one :
  aggregate [Samples.carbon80]
  = {| totalAssessments := 1;
       avgCarbonFootprint := Num 80;
       avgSustainabilityScore := Num 0;
       avgCircularityIndex := Num 0 |}.
Proof. vm_compute. reflexivity. Qed.

End Aggregation.

(** ** Adding to and removing from the selection *)

Section SelectionHandlers.
Import JS ComparisonTool Samples.

Lemma filter_ne_absent (i : nat) (l : list nat) :
  i ∉ l → filter (λ index, index ≠ i) l = l.
Proof.
  induction l as [|x l IH]; [done|]. intros Hnot.
  apply not_elem_of_cons in Hnot as [Hne Hnot].
  rewrite filter_cons_True by done. by rewrite IH.
Qed.

(** X1. Adding an index that is not selected and removing it again gives
    back the selection, whether the add was accepted or refused because
    four were selected. *)
Theorem add_then_remove (i : nat) (st : State) :
  i ∉ selectedAssessments st →
  selectedAssessments (handleRemoveAssessment i (handleAddAssessment i st))
  = selectedAssessments st.
Proof.
  intros Hnot. unfold handleAddAssessment.
  destruct (_ && _); cbn.
  - rewrite filter_app, filter_ne_absent by done.
    rewrite filter_cons_False by (intros H; by apply H).
    by rewrite filter_nil, app_nil_r.
  - by apply filter_ne_absent.
Qed.

Lemma add_then_remove_witness :
  ((2%nat) ∉ selectedAssessments twoSelected)
  ∧ selectedAssessments (handleRemoveAssessment 2 (handleAddAssessment 2 twoSelected))
    = selectedAssessments twoSelected.
Proof.
  assert ((2%nat) ∉ selectedAssessments twoSelected) as Hnot.
  { cbn. intros H. apply elem_of_cons in H as [H|H]; [lia|].
    apply elem_of_cons in H as [H|H]; [lia|]. by apply elem_of_nil in H. }
  split; [exact Hnot|exact (add_then_remove 2 twoSelected Hnot)].
Defined.

(** X2. A removal takes the index out of the selection and keeps every
    other selected index, in the order they had; it drops the comparison
    results, so that in the state it leaves neither the table nor the
    charts are rendered. *)
Theorem remove_resets_comparison (i : nat) (st : State) :
  (i ∉ selectedAssessments (handleRemoveAssessment i st))
  ∧ (∀ j, j ∈ selectedAssessments (handleRemoveAssessment i st)
          ↔ j ∈ selectedAssessments st ∧ j ≠ i)
  ∧ (selectedAssessments (handleRemoveAssessment i st)
     `sublist_of` selectedAssessments st)
  ∧ renderComparisonTable (handleRemoveAssessment i st) = Some None
  ∧ Charts.renderComparisonCharts (handleRemoveAssessment i st) = Some None.
Proof.
  split_and!.
  - cbn. intros [H _]%list_elem_of_filter. by apply H.
  - intros j. cbn. rewrite list_elem_of_filter. tauto.
  - cbn. apply sublist_filter.
  - reflexivity.
  - reflexivity.
Qed.

(** X3. An add changes nothing exactly when four indices are selected
    already or the index is among them; any other add puts the index last,
    so that the records selected before keep their columns and the first
    one stays the baseline. *)
Theorem add_refused_iff (i : nat) (st : State) :
  (handleAddAssessment i st = st
   ↔ (4 ≤ length (selectedAssessments st))%nat ∨ i ∈ selectedAssessments st)
  ∧ (handleAddAssessment i st ≠ st →
     selectedAssessments (handleAddAssessment i st)
     = (selectedAssessments st ++ [i])%list
     ∧ ∀ p index, selectedAssessments st !! p = Some index →
         selectedAssessments (handleAddAssessment i st) !! p = Some index).
Proof.
  unfold handleAddAssessment.
  destruct (bool_decide (length (selectedAssessments st) < 4)%nat) eqn:E4.
  - apply bool_decide_eq_true in E4.
    destruct (bool_decide (i ∈ selectedAssessments st)) eqn:Ein; cbn [andb negb].
    + apply bool_decide_eq_true in Ein. split; [split; [by right|done]|done].
    + apply bool_decide_eq_false in Ein. split.
      * split; [|intros [?|?]; [lia|done]].
        intros Heq. apply (f_equal (λ s, length (selectedAssessments s))) in Heq.
        cbn in Heq. rewrite length_app in Heq. cbn in Heq. lia.
      * intros _. cbn. split; [done|]. intros p index Hp.
        by apply lookup_app_l_Some.
  - apply bool_decide_eq_false in E4. cbn [andb].
    split; [split; [left; lia|done]|done].
Qed.

Lemma add_refused_iff_witness :
  (handleAddAssessment 2 twoSelected ≠ twoSelected)
  ∧ selectedAssessments (handleAddAssessment 2 twoSelected)
    = (selectedAssessments twoSelected ++ [2%nat])%list.
Proof.
  assert (handleAddAssessment 2 twoSelected ≠ twoSelected) as Hne.
  { intros H. apply (f_equal (λ s, length (selectedAssessments s))) in H.
    vm_compute in H. discriminate. }
  split; [exact Hne|].
  exact (proj1 (proj2 (add_refused_iff 2 twoSelected) Hne)).
Defined.

End SelectionHandlers.

(** ** Rendering the comparison *)

Section Rendering.
Import JS ComparisonTool Samples.

(** When every selected index holds an assessment with results, the values
    of a metric are read without an exception, one per selected index. *)
Lemma metricValues_total (available : list Assessment) (selected : list nat)
    (k : string) :
  (∀ j, j ∈ selected → ∃ a r, available !! j = Some a ∧ results a = Some r) →
  ∃ values, metricValues available selected k = Some values
            ∧ length values = length selected.
Proof.
  intros Hall.
  assert (is_Some (metricValues available selected k)) as [values Hvalues].
  { apply mapM_is_Some_2, Forall_forall. intros j Hj.
    destruct (Hall j Hj) as (a & r & Ha & Hr).
    unfold compose, readMetric. rewrite Ha. cbn. rewrite Hr. cbn. done. }
  exists values. split; [done|]. symmetry. by eapply length_mapM.
Qed.

Lemma rows_total (available : list Assessment) (selected : list nat)
    (ms : list Metric) :
  (∀ j, j ∈ selected → ∃ a r, available !! j = Some a ∧ results a = Some r) →
  ∃ rows, mapM (renderRow available selected) ms = Some rows
          ∧ row_key <$> rows = key <$> ms
          ∧ Forall (λ row, length (row_cells row) = length selected) rows.
Proof.
  intros Hall. induction ms as [|m ms (rows & Hrows & Hkeys & Hcells)].
  - exists []. by split_and!.
  - destruct (metricValues_total available selected (key m) Hall)
      as (values & Hvalues & Hlen).
    assert (∃ row, renderRow available selected m = Some row
                   ∧ row_key row = key m
                   ∧ length (row_cells row) = length selected)
      as (row & Hrow & Hkey & Hcell).
    { unfold renderRow. rewrite Hvalues. cbn. eexists. split; [reflexivity|].
      cbn. by rewrite length_imap. }
    exists (row :: rows). cbn [mapM]. rewrite Hrow, Hrows. cbn.
    split_and!; [reflexivity|by rewrite Hkey, Hkeys|by constructor].
Qed.

Lemma charts_labels_total (available : list Assessment) (selected : list nat) :
  (∀ j, j ∈ selected → ∃ a r, available !! j = Some a ∧ results a = Some r) →
  ∃ labels, mapM (Charts.chartLabel available) selected = Some labels
            ∧ length labels = length selected.
Proof.
  intros Hall.
  assert (is_Some (mapM (Charts.chartLabel available) selected)) as [labels Hl].
  { apply mapM_is_Some_2, Forall_forall. intros j Hj.
    destruct (Hall j Hj) as (a & r & Ha & Hr).
    unfold compose, Charts.chartLabel. rewrite Ha. cbn. done. }
  exists labels. split; [done|]. symmetry. by eapply length_mapM.
Qed.

(** X4. In a state reached by the offered actions with at least two
    records selected, a comparison that the service answers is rendered
    without an exception: the table has the six metric rows in their order,
    each with one cell per selected record, and the charts have one bar per
    selected record in each of the three series. *)
Theorem comparison_renders
    (assessmentHistory : list Assessment) (st : State)
    (post : list (option Assessment) → outcome) (data : ComparisonData) :
  reachable assessmentHistory st →
  (2 ≤ length (selectedAssessments st))%nat →
  post (assessmentsData st) = Resolved data →
  ∃ rows charts,
    renderComparisonTable (runComparison post st).1 = Some (Some rows)
    ∧ row_key <$> rows = key <$> metrics
    ∧ Forall (λ row, length (row_cells row) = length (selectedAssessments st)) rows
    ∧ Charts.renderComparisonCharts (runComparison post st).1 = Some (Some charts)
    ∧ length (Charts.assessmentLabels charts) = length (selectedAssessments st)
    ∧ length (Charts.carbonData charts) = length (selectedAssessments st)
    ∧ length (Charts.sustainabilityData charts) = length (selectedAssessments st)
    ∧ length (Charts.circularityData charts) = length (selectedAssessments st).
Proof.
  intros Hreach Hlen Hpost.
  destruct (reachable_selection _ _ Hreach) as (_ & _ & Hidx).
  assert (∀ j, j ∈ selectedAssessments st →
               ∃ a r, availableAssessments st !! j = Some a ∧ results a = Some r)
    as Hall.
  { intros j Hj.
    destruct (available_hasResults _ _ j Hreach (Hidx _ Hj))
      as (a & r & ? & _ & _ & ? & _).
    by exists a, r. }
  destruct (rows_total _ _ metrics Hall) as (rows & Hrows & Hkeys & Hcells).
  destruct (charts_labels_total _ _ Hall) as (labels & Hlabels & Hll).
  destruct (metricValues_total _ _ "carbon_footprint" Hall) as (c & Hc & Hcl).
  destruct (metricValues_total _ _ "sustainability_score" Hall) as (s & Hs & Hsl).
  destruct (metricValues_total _ _ "circularity_index" Hall) as (ci & Hci & Hcil).
  unfold runComparison. rewrite bool_decide_eq_false_2 by lia. rewrite Hpost.
  cbn [fst]. unfold renderComparisonTable, Charts.renderComparisonCharts.
  cbn [comparisonResults availableAssessments selectedAssessments].
  rewrite Hrows, Hlabels, Hc, Hs, Hci. cbn.
  eexists _, _. split_and!; [reflexivity|done|done|reflexivity|done..].
Qed.

Lemma comparison_renders_witness :
  reachable sampleHistory twoAdded
  ∧ (2 ≤ length (selectedAssessments twoAdded))%nat
  ∧ answering (assessmentsData twoAdded) = Resolved (mkData None)
  ∧ ∃ rows charts,
      renderComparisonTable (runComparison answering twoAdded).1 = Some (Some rows)
      ∧ row_key <$> rows = key <$> metrics
      ∧ Forall (λ row, length (row_cells row)
                       = length (selectedAssessments twoAdded)) rows
      ∧ Charts.renderComparisonCharts (runComparison answering twoAdded).1
        = Some (Some charts)
      ∧ length (Charts.assessmentLabels charts) = length (selectedAssessments twoAdded)
      ∧ length (Charts.carbonData charts) = length (selectedAssessments twoAdded)
      ∧ length (Charts.sustainabilityData charts)
        = length (selectedAssessments twoAdded)
      ∧ length (Charts.circularityData charts)
        = length (selectedAssessments twoAdded).
Proof.
  assert (reachable sampleHistory twoAdded) as Hreach.
  { unfold twoAdded.
    apply reach_step; [apply reach_step; [apply reach_mount|]|];
      vm_compute; lia. }
  assert (2 ≤ length (selectedAssessments twoAdded))%nat as Hlen
    by (vm_compute; lia).
  assert (answering (assessmentsData twoAdded) = Resolved (mkData None)) as Hpost
    by reflexivity.
  split_and!; [exact Hreach|exact Hlen|exact Hpost|].
  exact (comparison_renders sampleHistory twoAdded answering (mkData None)
           Hreach Hlen Hpost).
Defined.

(** X5. With comparison results in the state, a selected index that is out
    of the range of the available assessments, or whose assessment has no
    results, makes the rendering of the table and of the charts throw. *)
Theorem stale_selection_throws (st : State) (data : ComparisonData) (index : nat) :
  comparisonResults st = Some data →
  index ∈ selectedAssessments st →
  (availableAssessments st !! index = None
   ∨ ∃ a, availableAssessments st !! index = Some a ∧ results a = None) →
  renderComparisonTable st = None
  ∧ Charts.renderComparisonCharts st = None.
Proof.
  intros Hres Hin Hbad.
  assert (∀ k, metricValues (availableAssessments st) (selectedAssessments st) k
               = None) as Hnone.
  { intros k. apply mapM_None_2, Exists_exists. exists index. split; [done|].
    unfold readMetric. destruct Hbad as [->|(a & -> & Hr)]; [done|].
    cbn. by rewrite Hr. }
  unfold renderComparisonTable, Charts.renderComparisonCharts. rewrite Hres.
  split.
  - assert (∀ m, renderRow (availableAssessments st) (selectedAssessments st) m
                 = None) as Hrow.
    { intros m. unfold renderRow. by rewrite Hnone. }
    assert (mapM (renderRow (availableAssessments st) (selectedAssessments st))
                 metrics = None) as ->; [|done].
    apply mapM_None_2. unfold metrics. apply Exists_cons_hd, Hrow.
  - rewrite (Hnone "carbon_footprint").
    by destruct (mapM (Charts.chartLabel _) _).
Qed.

Lemma stale_selection_throws_witness :
  renderComparisonTable
    {| selectedAssessments := [0; 5]%nat;
       comparisonResults := Some (mkData None);
       loading := false; error := ""; tabValue := 0;
       availableAssessments := [score50; score100] |} = None
  ∧ Charts.renderComparisonCharts
      {| selectedAssessments := [0; 5]%nat;
         comparisonResults := Some (mkData None);
         loading := false; error := ""; tabValue := 0;
         availableAssessments := [score50; score100] |} = None.
Proof.
  apply (stale_selection_throws _ (mkData None) 5%nat).
  - reflexivity.
  - cbn. apply list_elem_of_further, list_elem_of_here.
  - left. reflexivity.
Defined.

(** X6. The last column of a row reads "N/A" exactly when no record is
    selected; with a selection it names one of the selected records. *)
Theorem no_best_iff_nothing_selected
    (available : list Assessment) (selected : list nat) (m : Metric) (row : Row) :
  renderRow available selected m = Some row →
  (row_best row = None ↔ selected = [])
  ∧ ∀ n, row_best row = Some n → (1 ≤ n ≤ Z.of_nat (length selected))%Z.
Proof.
  unfold renderRow. intros Hrow.
  destruct (metricValues available selected (key m)) as [values|] eqn:Hvalues;
    [|discriminate].
  cbn in Hrow. injection Hrow as <-. cbn [row_best].
  pose proof (length_mapM _ _ _ Hvalues) as Hlen.
  destruct values as [|v values].
  - destruct selected; [|discriminate]. split; [done|]. intros n. discriminate.
  - destruct (bestIndex_first (key m) (v :: values)) as (i & x & Hidx & Hx & _);
      [done|].
    pose proof (lookup_lt_Some _ _ _ Hx) as Hi.
    unfold bestLabel. rewrite Hidx, bool_decide_eq_true_2 by lia.
    split.
    + split; [discriminate|]. intros ->. discriminate.
    + intros n [= <-]. lia.
Qed.

Lemma no_best_iff_nothing_selected_witness :
  renderRow [carbon0; carbon80] [] carbonMetric
  = Some (mkRow "carbon_footprint" "Carbon Footprint" [] None)
  ∧ (row_best (mkRow "carbon_footprint" "Carbon Footprint" [] None) = None
     ↔ @nil nat = []).
Proof.
  assert (renderRow [carbon0; carbon80] [] carbonMetric
          = Some (mkRow "carbon_footprint" "Carbon Footprint" [] None)) as H
    by reflexivity.
  split; [exact H|].
  exact (proj1 (no_best_iff_nothing_selected _ _ _ _ H)).
Defined.

Lemma chip_values (m : Metric) (values : list Q) (b : Z) :
  chip_value <$> imap (valueCell m values b) values = values.
Proof.
  apply list_eq. intros i.
  rewrite list_lookup_fmap, list_lookup_imap.
  by destruct (values !! i).
Qed.

(** X7. The charts plot what the table shows: the bars of the carbon,
    sustainability and circularity charts are the values on the chips of
    the rows of these metrics, record by record. *)
Theorem charts_agree_with_table (st : State) (charts : Charts.ChartData)
    (rows : list Row) :
  Charts.renderComparisonCharts st = Some (Some charts) →
  renderComparisonTable st = Some (Some rows) →
  (λ row, chip_value <$> row_cells row) <$> rows !! 0%nat = Some (Charts.carbonData charts)
  ∧ (λ row, chip_value <$> row_cells row) <$> rows !! 3%nat
    = Some (Charts.sustainabilityData charts)
  ∧ (λ row, chip_value <$> row_cells row) <$> rows !! 4%nat
    = Some (Charts.circularityData charts).
Proof.
  unfold Charts.renderComparisonCharts, renderComparisonTable.
  destruct (comparisonResults st) as [data|]; [|discriminate].
  destruct (mapM (Charts.chartLabel _) _) as [labels|]; [|discriminate].
  cbn [mbind option_bind].
  destruct (metricValues _ _ "carbon_footprint") as [c|] eqn:Hc; [|discriminate].
  destruct (metricValues _ _ "sustainability_score") as [s|] eqn:Hs;
    [|discriminate].
  destruct (metricValues _ _ "circularity_index") as [ci|] eqn:Hci;
    [|discriminate].
  cbn. intros [= <-]. unfold metrics. cbn [mapM]. unfold renderRow.
  cbn [key]. rewrite Hc, Hs, Hci. cbn [mbind option_bind mret option_ret].
  destruct (metricValues _ _ "energy_consumption") as [e|]; [|discriminate].
  cbn [mbind option_bind mret option_ret].
  destruct (metricValues _ _ "water_usage") as [w|]; [|discriminate].
  cbn [mbind option_bind mret option_ret].
  destruct (metricValues _ _ "material_efficiency") as [me|]; [|discriminate].
  cbn. intros [= <-]. cbn. by rewrite !chip_values.
Qed.

Lemma charts_agree_with_table_witness :
  ∃ charts rows,
    Charts.renderComparisonCharts (runComparison answering twoAdded).1
    = Some (Some charts)
    ∧ renderComparisonTable (runComparison answering twoAdded).1 = Some (Some rows)
    ∧ (λ row, chip_value <$> row_cells row) <$> rows !! 0%nat
      = Some (Charts.carbonData charts)
    ∧ (λ row, chip_value <$> row_cells row) <$> rows !! 3%nat
      = Some (Charts.sustainabilityData charts)
    ∧ (λ row, chip_value <$> row_cells row) <$> rows !! 4%nat
      = Some (Charts.circularityData charts).
Proof.
  destruct (Charts.renderComparisonCharts (runComparison answering twoAdded).1)
    as [[charts|]|] eqn:Hcharts;
    [|vm_compute in Hcharts; discriminate..].
  destruct (renderComparisonTable (runComparison answering twoAdded).1)
    as [[rows|]|] eqn:Hrows;
    [|vm_compute in Hrows; discriminate..].
  exists charts, rows. split; [reflexivity|]. split; [reflexivity|].
  exact (charts_agree_with_table _ charts rows Hcharts Hrows).
Defined.

End Rendering.

(** ** Bands and trend thresholds *)

Section Bands.
Import JS ComparisonTool Samples.

(** X8. The banding of the comparison view is monotone: on a
    lower-is-better metric a lower value never gets a worse band, on a
    higher-is-better metric a higher value never gets a worse band. *)
Theorem getMetricColor_monotone (k : string) (v1 v2 : Q) :
  (v1 <= v2)%Q →
  (Spec.directionality_of k = Some Spec.LowerBetter →
   (Rank.severity (getMetricColor v1 k) ≤ Rank.severity (getMetricColor v2 k))%nat)
  ∧ (Spec.directionality_of k = Some Spec.HigherBetter →
     (Rank.severity (getMetricColor v2 k) ≤ Rank.severity (getMetricColor v1 k))%nat).
Proof.
  intros Hle. split; intros Hd.
  - rewrite !(getMetricColor_lower k _ Hd).
    destruct (lt (Num v1) (Num 50)) eqn:A1; [cbn; lia|].
    destruct (lt (Num v2) (Num 50)) eqn:B1.
    { apply lt_Num in B1. apply lt_Num_false in A1. lra. }
    destruct (lt (Num v1) (Num 100)) eqn:A2;
      [destruct (lt (Num v2) (Num 100)); cbn; lia|].
    destruct (lt (Num v2) (Num 100)) eqn:B2; [|cbn; lia].
    apply lt_Num in B2. apply lt_Num_false in A2. lra.
  - rewrite !(getMetricColor_higher k _ Hd). unfold gt.
    destruct (lt (Num 80) (Num v2)) eqn:B1; [cbn; lia|].
    destruct (lt (Num 80) (Num v1)) eqn:A1.
    { apply lt_Num in A1. apply lt_Num_false in B1. lra. }
    destruct (lt (Num 60) (Num v2)) eqn:B2;
      [destruct (lt (Num 60) (Num v1)); cbn; lia|].
    destruct (lt (Num 60) (Num v1)) eqn:A2; [|cbn; lia].
    apply lt_Num in A2. apply lt_Num_false in B2. lra.
Qed.

Lemma getMetricColor_monotone_witness :
  (40 <= 120)%Q
  ∧ Spec.directionality_of "water_usage" = Some Spec.LowerBetter
  ∧ (Rank.severity (getMetricColor 40 "water_usage")
     ≤ Rank.severity (getMetricColor 120 "water_usage"))%nat.
Proof.
  assert (40 <= 120)%Q as Hle by (vm_compute; discriminate).
  assert (Spec.directionality_of "water_usage" = Some Spec.LowerBetter) as Hd
    by reflexivity.
  split_and!; [exact Hle|exact Hd|].
  exact (proj1 (getMetricColor_monotone "water_usage" 40 120 Hle) Hd).
Defined.

(** The improvement over a baseline that is not zero is a finite number. *)
Lemma improvement_finite (current baseline : Q) :
  ¬ (baseline == 0)%Q →
  improvement current baseline = Num ((baseline - current) / baseline * 100)%Q.
Proof.
  intros Hb. unfold improvement, div, sub.
  destruct (Qeq_bool baseline 0) eqn:E; [|reflexivity].
  apply Qeq_bool_iff in E. contradiction.
Qed.

(** X9. With a positive baseline the icon never points against the
    values: the upward icon is shown only for a value below the baseline,
    the downward icon only for a value above it, and a value equal to the
    baseline gets the neutral icon.  Rounding does not bear on this: the
    difference of two doubles has the sign of their exact difference, and
    the division by a positive baseline and the product by 100 keep it. *)
Theorem icon_direction (current baseline : Q) :
  (0 < baseline)%Q →
  (getImprovementIcon current baseline = TrendingUp → (current < baseline)%Q)
  ∧ (getImprovementIcon current baseline = TrendingDown →
     (baseline < current)%Q)
  ∧ ((current == baseline)%Q → getImprovementIcon current baseline = Remove).
Proof.
  intros Hb. unfold getImprovementIcon.
  rewrite improvement_finite by lra.
  set (d := ((baseline - current) / baseline)%Q).
  assert (d * baseline == baseline - current)%Q as Hd.
  { unfold d. field. lra. }
  unfold gt.
  destruct (lt (Num 5) (Num (d * 100))) eqn:Eup.
  - apply lt_Num in Eup.
    split_and!; [intros _; nra|discriminate|intros Heq; nra].
  - apply lt_Num_false in Eup.
    destruct (lt (Num (d * 100)) (Num (-5))) eqn:Edown.
    + apply lt_Num in Edown.
      split_and!; [discriminate|intros _; nra|intros Heq; nra].
    + split_and!; [discriminate|discriminate|done].
Qed.

Lemma icon_direction_witness :
  (0 < 80)%Q
  ∧ getImprovementIcon 60 80 = TrendingUp
  ∧ (60 < 80)%Q.
Proof.
  assert (0 < 80)%Q as Hb by reflexivity.
  assert (getImprovementIcon 60 80 = TrendingUp) as Hup by reflexivity.
  split_and!; [exact Hb|exact Hup|exact (proj1 (icon_direction 60 80 Hb) Hup)].
Defined.

End Bands.

(** ** The dashboard: means, recent assessments, colours *)

Section DashboardProperties.
Import JS Dashboard Samples.

(** The [reduce] counts the records. *)
Lemma reducer_counts (assessmentHistory : list Assessment) (acc : Acc) :
  (acc_total (fold_left reducer assessmentHistory acc)
   == acc_total acc + inject_Z (Z.of_nat (length assessmentHistory)))%Q.
Proof.
  revert acc. induction assessmentHistory as [|a h IH]; intros acc.
  - cbn [fold_left length]. change (inject_Z (Z.of_nat 0)) with 0%Q. lra.
  - cbn [fold_left]. rewrite IH. cbn [length reducer acc_total].
    rewrite Nat2Z.inj_succ. unfold Z.succ. rewrite inject_Z_plus.
    change (inject_Z 1) with 1%Q. lra.
Qed.

(** A metric that no record holds, or holds as 0, leaves its sum as it
    is. *)
Lemma reducer_zero (assessmentHistory : list Assessment) (acc : Acc) :
  ((∀ a, a ∈ assessmentHistory → metricOrZero a "carbon_footprint" = 0%Q) →
   (acc_carbon (fold_left reducer assessmentHistory acc) == acc_carbon acc)%Q)
  ∧ ((∀ a, a ∈ assessmentHistory → metricOrZero a "sustainability_score" = 0%Q) →
     (acc_sustainability (fold_left reducer assessmentHistory acc)
      == acc_sustainability acc)%Q)
  ∧ ((∀ a, a ∈ assessmentHistory → metricOrZero a "circularity_index" = 0%Q) →
     (acc_circularity (fold_left reducer assessmentHistory acc)
      == acc_circularity acc)%Q).
Proof.
  revert acc. induction assessmentHistory as [|a h IH]; intros acc.
  - cbn [fold_left]. split_and!; intros _; reflexivity.
  - cbn [fold_left]. destruct (IH (reducer acc a)) as (Hc & Hs & Hi).
    split_and!; intros Hzero.
    + rewrite Hc by (intros b Hb; apply Hzero; by right).
      cbn [reducer acc_carbon]. rewrite (Hzero a) by left. lra.
    + rewrite Hs by (intros b Hb; apply Hzero; by right).
      cbn [reducer acc_sustainability]. rewrite (Hzero a) by left. lra.
    + rewrite Hi by (intros b Hb; apply Hzero; by right).
      cbn [reducer acc_circularity]. rewrite (Hzero a) by left. lra.
Qed.

Lemma div_nonzero (a b : Q) : ¬ (b == 0)%Q → div a b = Num (a / b)%Q.
Proof.
  intros Hb. unfold div. destruct (Qeq_bool b 0) eqn:E; [|reflexivity].
  apply Qeq_bool_iff in E. contradiction.
Qed.

(** X10. For a history that is not empty the statistics count every
    record, with or without results; and a metric that no record holds, or
    that every record holds as 0, has the average 0, not the outcome of a
    division of zero by zero.  Both are exact on the doubles of the source:
    the count adds 1 to a small integer, and a sum of zeros divided by a
    positive count is 0. *)
Theorem aggregate_counts_records (assessmentHistory : list Assessment) :
  assessmentHistory ≠ [] →
  (totalAssessments (aggregate assessmentHistory)
   == inject_Z (Z.of_nat (length assessmentHistory)))%Q
  ∧ ((∀ a, a ∈ assessmentHistory → metricOrZero a "carbon_footprint" = 0%Q) →
     strict_eq (avgCarbonFootprint (aggregate assessmentHistory)) (Num 0) = true)
  ∧ ((∀ a, a ∈ assessmentHistory → metricOrZero a "sustainability_score" = 0%Q) →
     strict_eq (avgSustainabilityScore (aggregate assessmentHistory)) (Num 0)
     = true)
  ∧ ((∀ a, a ∈ assessmentHistory → metricOrZero a "circularity_index" = 0%Q) →
     strict_eq (avgCircularityIndex (aggregate assessmentHistory)) (Num 0) = true).
Proof.
  intros Hne. unfold aggregate, statsEffect.
  rewrite bool_decide_eq_true_2 by (destruct assessmentHistory; [done|cbn; lia]).
  pose proof (reducer_counts assessmentHistory (mkAcc 0 0 0 0)) as Ht.
  destruct (reducer_zero assessmentHistory (mkAcc 0 0 0 0)) as (Hc & Hs & Hi).
  cbn [acc_total acc_carbon acc_sustainability acc_circularity] in Ht, Hc, Hs, Hi.
  cbv zeta.
  set (stats := fold_left reducer assessmentHistory (mkAcc 0 0 0 0)) in *.
  assert (0 < inject_Z (Z.of_nat (length assessmentHistory)))%Q as Hpos.
  { change 0%Q with (inject_Z 0). rewrite <- Zlt_Qlt.
    destruct assessmentHistory; [done|cbn; lia]. }
  assert (¬ (acc_total stats == 0)%Q) as Hnz by (rewrite Ht; lra).
  cbn [totalAssessments avgCarbonFootprint avgSustainabilityScore
       avgCircularityIndex].
  rewrite !div_nonzero by done. cbn [strict_eq].
  split_and!.
  - rewrite Ht. lra.
  - intros Hzero. apply Qeq_bool_iff. rewrite (Hc Hzero). by field.
  - intros Hzero. apply Qeq_bool_iff. rewrite (Hs Hzero). by field.
  - intros Hzero. apply Qeq_bool_iff. rewrite (Hi Hzero). by field.
Qed.

Lemma aggregate_counts_records_witness :
  [noCarbon; emptyResults; carbon0] ≠ []
  ∧ (∀ a, a ∈ [noCarbon; emptyResults; carbon0] →
          metricOrZero a "carbon_footprint" = 0%Q)
  ∧ (totalAssessments (aggregate [noCarbon; emptyResults; carbon0])
     == inject_Z (Z.of_nat (length [noCarbon; emptyResults; carbon0])))%Q
  ∧ strict_eq (avgCarbonFootprint (aggregate [noCarbon; emptyResults; carbon0]))
              (Num 0) = true.
Proof.
  assert ([noCarbon; emptyResults; carbon0] ≠ []) as Hne by discriminate.
  assert (∀ a, a ∈ [noCarbon; emptyResults; carbon0] →
               metricOrZero a "carbon_footprint" = 0%Q) as Hzero.
  { intros a Hin.
    repeat (apply elem_of_cons in Hin as [->|Hin]; [vm_compute; reflexivity|]).
    by apply elem_of_nil in Hin. }
  destruct (aggregate_counts_records _ Hne) as (Hn & Hc & _).
  split_and!; [exact Hne|exact Hzero|exact Hn|exact (Hc Hzero)].
Defined.

(** X11. For a history that is not empty the dashboard lists its first
    five records, or all of them when there are fewer, in the order of the
    history; a divider follows every listed record but the last one. *)
Theorem recent_assessments_listed (assessmentHistory : list Assessment) :
  assessmentHistory ≠ [] →
  ∃ items,
    Recent.recentAssessments assessmentHistory = Some items
    ∧ length items = Nat.min 5 (length assessmentHistory)
    ∧ ∀ index it, items !! index = Some it →
        (Recent.item_divider it = true ↔ (S index < length items)%nat)
        ∧ ∃ a, assessmentHistory !! index = Some a
               ∧ Recent.item_color it = recentColor a.
Proof.
  intros Hne. unfold Recent.recentAssessments.
  rewrite bool_decide_eq_false_2 by (by destruct assessmentHistory).
  eexists. split; [reflexivity|].
  assert (length (imap (Recent.item assessmentHistory) (take 5 assessmentHistory))
          = Nat.min 5 (length assessmentHistory)) as Hlen
    by (by rewrite length_imap, length_take).
  split; [exact Hlen|].
  intros index it Hit. rewrite Hlen.
  rewrite list_lookup_imap in Hit.
  destruct (take 5 assessmentHistory !! index) as [a|] eqn:Ha; [|discriminate].
  cbn in Hit. injection Hit as <-.
  apply lookup_take_Some in Ha as [Ha Hlt]. split.
  - cbn [Recent.item Recent.item_divider]. rewrite bool_decide_eq_true. lia.
  - by exists a.
Qed.

Lemma recent_assessments_listed_witness :
  [score50; score70] ≠ []
  ∧ ∃ items,
      Recent.recentAssessments [score50; score70] = Some items
      ∧ length items = Nat.min 5 (length [score50; score70])
      ∧ ∀ index it, items !! index = Some it →
          (Recent.item_divider it = true ↔ (S index < length items)%nat)
          ∧ ∃ a, [score50; score70] !! index = Some a
                 ∧ Recent.item_color it = recentColor a.
Proof.
  assert ([score50; score70] ≠ []) as Hne by discriminate.
  split; [exact Hne|exact (recent_assessments_listed [score50; score70] Hne)].
Defined.

(** X12. On a sustainability score or a circularity index the colour of
    the dashboard depends on the cut-offs 0.8 and 0.6 only: the tests
    against 80 and 60 never decide.  A value that is not there is poor. *)
Theorem getImpactColor_effective (value : Q) :
  getImpactColor (Some value) "sustainability"
  = (if gt (Num value) (Num 0.8) then Success
     else if gt (Num value) (Num 0.6) then Warning else Error)
  ∧ getImpactColor (Some value) "circularity"
    = getImpactColor (Some value) "sustainability"
  ∧ getImpactColor None "sustainability" = Error
  ∧ ∀ metal route, recentColor (mkAssessment metal route None) = Error.
Proof.
  split_and!; [|reflexivity|reflexivity|reflexivity].
  unfold getImpactColor.
  change (bool_decide ("sustainability" = "carbon")) with false.
  change (bool_decide ("sustainability" = "sustainability")) with true.
  cbn [orb]. unfold gt.
  destruct (lt (Num 0.8) (Num value)) eqn:A; [reflexivity|].
  assert (lt (Num 80) (Num value) = false) as ->.
  { apply lt_Num_false in A. apply lt_Num_false. lra. }
  cbn [orb].
  destruct (lt (Num 0.6) (Num value)) eqn:B; [reflexivity|].
  assert (lt (Num 60) (Num value) = false) as ->; [|reflexivity].
  apply lt_Num_false in B. apply lt_Num_false. lra.
Qed.

End DashboardProperties.

(** ** The session: history, current assessment, tabs *)

Section Session.
Import Samples.

(** X13. After any sequence of completed assessments the history is the
    last ten of them, the newest first. *)
Theorem history_is_last_ten (completed : list Assessment) :
  foldl (λ prev assessmentData, App.handleAssessmentComplete assessmentData prev)
        [] completed
  = take 10 (reverse completed)
  ∧ App.history (take 10 (reverse completed)).
Proof.
  assert (foldl (λ prev assessmentData,
                   App.handleAssessmentComplete assessmentData prev) [] completed
          = take 10 (reverse completed)
          ∧ App.history (foldl (λ prev assessmentData,
                   App.handleAssessmentComplete assessmentData prev) [] completed))
    as [Heq Hhist].
  { induction completed as [|x completed [IH Hh]] using rev_ind.
    - split; [reflexivity|constructor].
    - rewrite foldl_snoc, reverse_snoc. split; [|by constructor].
      rewrite IH. unfold App.handleAssessmentComplete.
      rewrite take_take. reflexivity. }
  split; [exact Heq|by rewrite <- Heq].
Qed.

Lemma session_current (app : Shell.AppState) :
  Shell.session app →
  Shell.currentAssessment app = head (Shell.assessmentHistory app)
  ∧ App.history (Shell.assessmentHistory app).
Proof.
  induction 1 as [|x app _ [_ IH]]; [split; [reflexivity|constructor]|].
  split; [reflexivity|by constructor].
Qed.

(** X14. Along a session the current assessment is the first record of
    the history: both are absent before the first completion, and after a
    completion both hold the record just completed. *)
Theorem current_is_newest (app : Shell.AppState) :
  Shell.session app →
  Shell.currentAssessment app = Shell.assessmentHistory app !! 0%nat
  ∧ (Shell.currentAssessment app = None ↔ Shell.assessmentHistory app = [])
  ∧ (length (Shell.assessmentHistory app) ≤ 10)%nat.
Proof.
  intros Hs. destruct (session_current app Hs) as [Hcur Hhist].
  rewrite Hcur. split_and!.
  - by destruct (Shell.assessmentHistory app).
  - by destruct (Shell.assessmentHistory app).
  - by apply history_length.
Qed.

Lemma current_is_newest_witness :
  Shell.session (Shell.handleAssessmentComplete score70
                   (Shell.handleAssessmentComplete score50 Shell.initialApp))
  ∧ Shell.currentAssessment
      (Shell.handleAssessmentComplete score70
         (Shell.handleAssessmentComplete score50 Shell.initialApp))
    = Shell.assessmentHistory
        (Shell.handleAssessmentComplete score70
           (Shell.handleAssessmentComplete score50 Shell.initialApp)) !! 0%nat.
Proof.
  assert (Shell.session (Shell.handleAssessmentComplete score70
                           (Shell.handleAssessmentComplete score50 Shell.initialApp)))
    as Hs by (do 2 constructor; constructor).
  split; [exact Hs|exact (proj1 (current_is_newest _ Hs))].
Defined.

(** X15. A component that selects its assessment on mounting (the
    visualization dashboard, the report page) shows, in a session, the
    newest record, and none before the first completion: the branch of the
    effect that picks the last record of the history is never taken. *)
Theorem mounted_selects_newest (app : Shell.AppState) :
  Shell.session app →
  VisualizationDashboard.mounted app = Shell.assessmentHistory app !! 0%nat
  ∧ VisualizationDashboard.mounted app = Shell.currentAssessment app.
Proof.
  intros Hs. destruct (session_current app Hs) as [Hcur _].
  unfold VisualizationDashboard.mounted, VisualizationDashboard.selectEffect.
  rewrite Hcur. by destruct (Shell.assessmentHistory app).
Qed.

Lemma mounted_selects_newest_witness :
  Shell.session (Shell.handleAssessmentComplete score70
                   (Shell.handleAssessmentComplete score50 Shell.initialApp))
  ∧ VisualizationDashboard.mounted
      (Shell.handleAssessmentComplete score70
         (Shell.handleAssessmentComplete score50 Shell.initialApp))
    = Some score70.
Proof.
  assert (Shell.session (Shell.handleAssessmentComplete score70
                           (Shell.handleAssessmentComplete score50 Shell.initialApp)))
    as Hs by (do 2 constructor; constructor).
  split; [exact Hs|exact (proj1 (mounted_selects_newest _ Hs))].
Defined.

Lemma findIndex_from_range {A : Type} (i : Z) (p : A → bool) (l : list A) :
  Navigation.findIndex_from i p l = (-1)%Z
  ∨ (i ≤ Navigation.findIndex_from i p l < i + Z.of_nat (length l))%Z.
Proof.
  revert i. induction l as [|x l IH]; intros i; [by left|].
  cbn [Navigation.findIndex_from length]. destruct (p x); [right; lia|].
  destruct (IH (i + 1)%Z) as [->|H]; [by left|right; lia].
Qed.

(** X16. The tab shown as selected is always one of the six tabs; the
    path a tab navigates to selects that same tab; a location that is the
    path of no tab selects the first one. *)
Theorem tab_selection (pathname : string) :
  (0 ≤ Navigation.tabValue pathname < Z.of_nat (length Navigation.tabs))%Z
  ∧ (∀ newValue p, Navigation.handleTabChange newValue = Some p →
       Navigation.tabValue p = Z.of_nat newValue)
  ∧ ((∀ tab, tab ∈ Navigation.tabs → Navigation.path tab ≠ pathname) →
     Navigation.tabValue pathname = 0%Z).
Proof.
  split; [|split].
  - unfold Navigation.tabValue, Navigation.currentTab.
    case_bool_decide as H; [|cbn; lia].
    destruct (findIndex_from_range 0
                (λ tab, bool_decide (Navigation.path tab = pathname))
                Navigation.tabs) as [E|E]; lia.
  - intros newValue p. unfold Navigation.handleTabChange, Navigation.tabs.
    do 6 (destruct newValue as [|newValue]; [intros [= <-]; reflexivity|]).
    discriminate.
  - intros Hnone. unfold Navigation.tabValue, Navigation.currentTab.
    assert (∀ l i, (∀ tab, tab ∈ l → Navigation.path tab ≠ pathname) →
              Navigation.findIndex_from i
                (λ tab, bool_decide (Navigation.path tab = pathname)) l = (-1)%Z)
      as Hall.
    { induction l as [|x l IH]; intros i Hl; [reflexivity|].
      cbn [Navigation.findIndex_from].
      rewrite bool_decide_eq_false_2 by (apply Hl; left).
      apply IH. intros tab Hin. apply Hl. by right. }
    rewrite (Hall _ _ Hnone). reflexivity.
Qed.

Lemma tab_selection_witness :
  Navigation.handleTabChange 3 = Some "/visualize"
  ∧ Navigation.tabValue "/visualize" = 3%Z
  ∧ Navigation.tabValue "/nowhere" = 0%Z.
Proof.
  assert (Navigation.handleTabChange 3 = Some "/visualize") as H by reflexivity.
  assert (∀ tab, tab ∈ Navigation.tabs → Navigation.path tab ≠ "/nowhere") as Hn.
  { intros tab Hin. unfold Navigation.tabs in Hin.
    repeat (apply elem_of_cons in Hin as [->|Hin]; [discriminate|]).
    by apply elem_of_nil in Hin. }
  split_and!; [exact H| |].
  - exact (proj1 (proj2 (tab_selection "/")) 3%nat "/visualize" H).
  - exact (proj2 (proj2 (tab_selection "/nowhere")) Hn).
Defined.

End Session.

(** ** Gauges, wizard and reports *)

Section Pages.
Import JS Samples PageSamples.

Lemma barColor_band (k : string) (value : Q) :
  Spec.directionality_of k = Some Spec.HigherBetter →
  VisualizationDashboard.barColor value
  = Rank.hexOf (ComparisonTool.getMetricColor value k).
Proof.
  intros Hd. rewrite (getMetricColor_higher k value Hd).
  unfold VisualizationDashboard.barColor.
  destruct (gt (Num value) (Num 80)); [reflexivity|].
  by destruct (gt (Num value) (Num 60)).
Qed.

(** X17. The gauges of the sustainability score, the material efficiency
    and the recycling potential are coloured by the banding of the
    comparison view: green, orange and red where [getMetricColor] says
    good, warning and poor for the value shown, a missing value being shown
    as 0.  Without a selected assessment, or without its results, no gauge
    is rendered. *)
Theorem gauges_follow_comparison_bands (a : Assessment) (r : gmap string Q) :
  results a = Some r →
  ∃ score circularity efficiency recycling,
    VisualizationDashboard.renderSustainabilityMetrics (Some a)
    = Some [score; circularity; efficiency; recycling]
    ∧ VisualizationDashboard.gauge_value score
      = or_zero (r !! "sustainability_score")
    ∧ VisualizationDashboard.gauge_bar score
      = Rank.hexOf (ComparisonTool.getMetricColor
                      (or_zero (r !! "sustainability_score")) "sustainability_score")
    ∧ VisualizationDashboard.gauge_value efficiency
      = or_zero (r !! "material_efficiency")
    ∧ VisualizationDashboard.gauge_bar efficiency
      = Rank.hexOf (ComparisonTool.getMetricColor
                      (or_zero (r !! "material_efficiency")) "material_efficiency")
    ∧ VisualizationDashboard.gauge_value recycling
      = or_zero (r !! "recycling_potential")
    ∧ VisualizationDashboard.gauge_bar recycling
      = Rank.hexOf (ComparisonTool.getMetricColor
                      (or_zero (r !! "recycling_potential")) "recycling_potential")
    ∧ VisualizationDashboard.renderSustainabilityMetrics None = None
    ∧ VisualizationDashboard.renderSustainabilityMetrics
        (Some (mkAssessment (metal_type a) (production_route a) None)) = None.
Proof.
  intros Hr. unfold VisualizationDashboard.renderSustainabilityMetrics.
  cbn. rewrite Hr. cbn.
  eexists _, _, _, _. split; [reflexivity|].
  cbn [VisualizationDashboard.gauge VisualizationDashboard.gauge_value
       VisualizationDashboard.gauge_bar].
  split_and!; [reflexivity|by apply barColor_band
              |reflexivity|by apply barColor_band
              |reflexivity|by apply barColor_band|reflexivity..].
Qed.

Lemma gauges_follow_comparison_bands_witness :
  results score70 = Some (list_to_map [("sustainability_score", 70%Q)])
  ∧ ∃ gauges,
      VisualizationDashboard.renderSustainabilityMetrics (Some score70) = Some gauges
      ∧ VisualizationDashboard.gauge_bar <$> gauges
        = ["#ff9800"; "#f44336"; "#f44336"; "#f44336"].
Proof.
  assert (results score70 = Some (list_to_map [("sustainability_score", 70%Q)]))
    as Hr by reflexivity.
  split; [exact Hr|].
  destruct (gauges_follow_comparison_bands score70 _ Hr)
    as (g1 & g2 & g3 & g4 & Hg & _).
  exists [g1; g2; g3; g4]. split; [exact Hg|].
  vm_compute in Hg. injection Hg as <- <- <- <-. vm_compute. reflexivity.
Defined.

(** X18. Along the offered actions of the wizard the active step stays
    one of the four steps, whatever the outcome of the submissions, so that
    the panel shown is never the "Unknown step" one; the state of [App]
    stays that of a session. *)
Theorem wizard_step_in_range (st : AssessmentForm.FormState) (app : Shell.AppState) :
  AssessmentForm.reachable st app →
  (0 ≤ AssessmentForm.activeStep st
   < Z.of_nat (length AssessmentForm.steps))%Z
  ∧ AssessmentForm.getStepContent (AssessmentForm.activeStep st)
    ≠ AssessmentForm.UnknownStep
  ∧ Shell.session app.
Proof.
  intros Hreach.
  assert ((0 ≤ AssessmentForm.activeStep st < 4)%Z ∧ Shell.session app)
    as [Hstep Hs].
  { induction Hreach as [app Hs|st app a _ [IH Hs] Hoff]; [by cbn|].
    destruct a as [| |[data|e]]; cbn in *; [split; [lia|done]..| |done].
    split; [lia|by constructor]. }
  split; [exact Hstep|]. split; [|exact Hs].
  unfold AssessmentForm.getStepContent.
  repeat (case_bool_decide; [discriminate|]). lia.
Qed.

Lemma wizard_step_in_range_witness :
  AssessmentForm.reachable
    (AssessmentForm.handle AssessmentForm.Next AssessmentForm.initialForm
       Shell.initialApp).1
    (AssessmentForm.handle AssessmentForm.Next AssessmentForm.initialForm
       Shell.initialApp).2
  ∧ (0 ≤ AssessmentForm.activeStep
           (AssessmentForm.handle AssessmentForm.Next AssessmentForm.initialForm
              Shell.initialApp).1
     < Z.of_nat (length AssessmentForm.steps))%Z.
Proof.
  assert (AssessmentForm.reachable
            (AssessmentForm.handle AssessmentForm.Next AssessmentForm.initialForm
               Shell.initialApp).1
            (AssessmentForm.handle AssessmentForm.Next AssessmentForm.initialForm
               Shell.initialApp).2) as Hreach.
  { apply AssessmentForm.reach_step;
      [apply AssessmentForm.reach_initial; constructor|cbn; lia]. }
  split; [exact Hreach|exact (proj1 (wizard_step_in_range _ _ Hreach))].
Defined.

Lemma form_surfaced_not_empty (server_error : option string) :
  AssessmentForm.surfaced server_error ≠ "".
Proof.
  unfold AssessmentForm.surfaced. destruct server_error as [msg|]; [|discriminate].
  case_bool_decide; [discriminate|done].
Qed.

(** X19. A submission that the service answers returns the wizard to its
    first step and makes the answer the current assessment, the first
    record of the history and the assessment a visualization page opens
    on, the history keeping at most ten records.  A submission that fails
    leaves the state of [App] and the step as they are and shows a message
    that is not empty. *)
Theorem submit_outcomes (st : AssessmentForm.FormState) (app : Shell.AppState)
    (data : Assessment) (server_error : option string) :
  AssessmentForm.activeStep
    (AssessmentForm.onSubmit (AssessmentForm.Resolved data) st app).1 = 0%Z
  ∧ AssessmentForm.error
      (AssessmentForm.onSubmit (AssessmentForm.Resolved data) st app).1 = ""
  ∧ Shell.currentAssessment
      (AssessmentForm.onSubmit (AssessmentForm.Resolved data) st app).2 = Some data
  ∧ Shell.assessmentHistory
      (AssessmentForm.onSubmit (AssessmentForm.Resolved data) st app).2 !! 0%nat
    = Some data
  ∧ (length (Shell.assessmentHistory
               (AssessmentForm.onSubmit (AssessmentForm.Resolved data) st app).2)
     ≤ 10)%nat
  ∧ VisualizationDashboard.mounted
      (AssessmentForm.onSubmit (AssessmentForm.Resolved data) st app).2 = Some data
  ∧ (AssessmentForm.onSubmit (AssessmentForm.Rejected server_error) st app).2 = app
  ∧ AssessmentForm.activeStep
      (AssessmentForm.onSubmit (AssessmentForm.Rejected server_error) st app).1
    = AssessmentForm.activeStep st
  ∧ AssessmentForm.error
      (AssessmentForm.onSubmit (AssessmentForm.Rejected server_error) st app).1 ≠ "".
Proof.
  split_and!; try reflexivity.
  - cbn. rewrite length_take. lia.
  - cbn. apply form_surfaced_not_empty.
Qed.

(** X20. Ticking a listed section twice gives back the sections as they
    were, and a tick never changes another section. *)
Theorem section_toggle_involutive (section : string) (prev : gmap string bool) :
  is_Some (prev !! section) →
  ReportsPage.handleSectionChange section
    (ReportsPage.handleSectionChange section prev) = prev
  ∧ ∀ other, other ≠ section →
      ReportsPage.handleSectionChange section prev !! other = prev !! other.
Proof.
  intros [checked Hc]. unfold ReportsPage.handleSectionChange. split.
  - rewrite lookup_insert_eq, insert_insert_eq, Hc. cbn.
    rewrite negb_involutive. by apply insert_id.
  - intros other Hne. by rewrite lookup_insert_ne.
Qed.

Lemma section_toggle_involutive_witness :
  is_Some (ReportsPage.initialSections !! "appendix")
  ∧ ReportsPage.handleSectionChange "appendix"
      (ReportsPage.handleSectionChange "appendix" ReportsPage.initialSections)
    = ReportsPage.initialSections.
Proof.
  assert (is_Some (ReportsPage.initialSections !! "appendix")) as H
    by (exists false; vm_compute; reflexivity).
  split; [exact H|exact (proj1 (section_toggle_involutive "appendix" _ H))].
Defined.

(** X21. Whatever is ticked, the sections listed stay the seven initial
    ones: a tick changes the state of a section and neither adds nor
    removes one.  A section that is not listed would be added, ticked. *)
Theorem sections_stay_listed (reportSections : gmap string bool) :
  ReportsPage.sections reportSections →
  dom reportSections = dom ReportsPage.initialSections
  ∧ size reportSections = 7%nat
  ∧ ∀ section, reportSections !! section = None →
      ReportsPage.handleSectionChange section reportSections !! section = Some true.
Proof.
  intros Hs.
  assert (dom reportSections = dom ReportsPage.initialSections) as Hdom.
  { induction Hs as [|section prev _ IH Hin]; [reflexivity|].
    unfold ReportsPage.handleSectionChange. rewrite dom_insert_L, IH.
    apply elem_of_dom in Hin. rewrite IH in Hin.
    apply subseteq_union_1_L. by apply singleton_subseteq_l. }
  split_and!; [exact Hdom| |].
  - rewrite <- size_dom, Hdom. vm_compute. reflexivity.
  - intros section Hnone. unfold ReportsPage.handleSectionChange.
    by rewrite lookup_insert_eq, Hnone.
Qed.

Lemma sections_stay_listed_witness :
  ReportsPage.sections
    (ReportsPage.handleSectionChange "methodology" ReportsPage.initialSections)
  ∧ size (ReportsPage.handleSectionChange "methodology" ReportsPage.initialSections)
    = 7%nat.
Proof.
  assert (ReportsPage.sections
            (ReportsPage.handleSectionChange "methodology"
               ReportsPage.initialSections)) as Hs.
  { constructor; [constructor|]. exists true. vm_compute. reflexivity. }
  split; [exact Hs|exact (proj1 (proj2 (sections_stay_listed _ Hs)))].
Defined.

(** X22. A report is requested exactly when an assessment is selected,
    and then once.  The request carries a title that is never empty (the
    typed one, or "LCA Report - " followed by the metal), and it carries
    the whole history exactly when the report is a comparison and the
    history holds more than one record. *)
Theorem report_request (assessmentHistory : list Assessment)
    (st : ReportsPage.PageState) :
  (length (ReportsPage.generateReport assessmentHistory st) ≤ 1)%nat
  ∧ (ReportsPage.generateReport assessmentHistory st = []
     ↔ ReportsPage.selectedAssessment st = None)
  ∧ ∀ request, request ∈ ReportsPage.generateReport assessmentHistory st →
      ReportsPage.selectedAssessment st = Some (ReportsPage.assessment request)
      ∧ ReportsPage.custom_title request ≠ ""
      ∧ (ReportsPage.assessments request = Some assessmentHistory
         ∨ ReportsPage.assessments request = None)
      ∧ (ReportsPage.assessments request = Some assessmentHistory
         ↔ ReportsPage.reportType st = "comparison"
           ∧ (1 < length assessmentHistory)%nat).
Proof.
  unfold ReportsPage.generateReport.
  destruct (ReportsPage.selectedAssessment st) as [selected|].
  - split; [cbn; lia|]. split; [split; discriminate|].
    intros request ->%list_elem_of_singleton.
    cbn [ReportsPage.assessment ReportsPage.custom_title ReportsPage.assessments].
    split; [reflexivity|]. split.
    { unfold ReportsPage.titleOf. case_bool_decide; [discriminate|done]. }
    destruct (bool_decide (ReportsPage.reportType st = "comparison")) eqn:Et;
      destruct (bool_decide (1 < length assessmentHistory)%nat) eqn:El;
      cbn [andb];
      try apply bool_decide_eq_true in Et; try apply bool_decide_eq_false in Et;
      try apply bool_decide_eq_true in El; try apply bool_decide_eq_false in El.
    + split; [by left|]. split; [done|done].
    + split; [by right|]. split; [discriminate|]. intros [_ ?]. done.
    + split; [by right|]. split; [discriminate|]. intros [? _]. done.
    + split; [by right|]. split; [discriminate|]. intros [? _]. done.
  - split; [cbn; lia|]. split; [done|].
    intros request Hin. by apply elem_of_nil in Hin.
Qed.

Lemma report_request_witness :
  ∃ request,
    request ∈ ReportsPage.generateReport [score70; score50] reportPage
    ∧ ReportsPage.custom_title request ≠ ""
    ∧ ReportsPage.assessments request = Some [score70; score50].
Proof.
  assert (∃ request,
            request ∈ ReportsPage.generateReport [score70; score50] reportPage)
    as [request Hin].
  { eexists. unfold ReportsPage.generateReport. cbn. apply list_elem_of_here. }
  exists request.
  destruct (proj2 (proj2 (report_request [score70; score50] reportPage))
              request Hin) as (_ & Htitle & _ & Hall).
  split_and!; [exact Hin|exact Htitle|].
  apply Hall. split; [reflexivity|cbn; lia].
Defined.

End Pages.

(** ** A comparison that ends with an error *)

Section FailedComparison.
Import ComparisonTool Samples.

(** X23. A comparison that ends with an error, refused for fewer than two
    records or rejected by the service, changes neither the selection nor
    the comparison results: the table and the charts rendered afterwards
    are those rendered before, next to the error. *)
Theorem failed_comparison_keeps_results
    (post : list (option Assessment) → outcome) (st : State) :
  fails post st →
  selectedAssessments (runComparison post st).1 = selectedAssessments st
  ∧ comparisonResults (runComparison post st).1 = comparisonResults st
  ∧ renderComparisonTable (runComparison post st).1 = renderComparisonTable st
  ∧ Charts.renderComparisonCharts (runComparison post st).1
    = Charts.renderComparisonCharts st.
Proof.
  unfold fails, runComparison. case_bool_decide as Hlen.
  - intros _. by split_and!.
  - destruct (post (assessmentsData st)); cbn [fst error].
    + intros Hf. by destruct Hf.
    + intros _. by split_and!.
Qed.

Lemma failed_comparison_keeps_results_witness :
  fails unreachable twoSelected
  ∧ renderComparisonTable (runComparison unreachable twoSelected).1
    = renderComparisonTable twoSelected.
Proof.
  assert (fails unreachable twoSelected) as Hf.
  { unfold fails. cbn. discriminate. }
  split; [exact Hf|].
  exact (proj1 (proj2 (proj2 (failed_comparison_keeps_results _ _ Hf)))).
Defined.

End FailedComparison.
